(** * easy_thumbnails.files: option normalisation, generation pipeline and naming

    A shallow embedding of [easy_thumbnails/files.py] ([get_thumbnailer] and
    the [Thumbnailer] class) together with the parts of the Python runtime it
    relies on ([dict], [float], [os.path]), followed by the properties of the
    thumbnail pipeline stated against that embedding. *)

From Stdlib Require Import List String Ascii Bool ZArith QArith Qminmax Lia.
From Stdlib Require DecimalString.
Import ListNotations.
Local Open Scope string_scope.
Set Warnings "-register-all".

(** ** Python values *)

(** The values that occur as option values, sizes and settings.  A finite
    float is kept as the rational it denotes; [VSeq] stands for a tuple or a
    list (the code below only iterates and unpacks them). *)
Inductive PyVal : Type :=
| VNone
| VBool (b : bool)
| VInt (z : Z)
| VFloat (q : Q)
| VStr (s : string)
| VSeq (items : list PyVal).

(** ** Exceptions *)

(** An exception is its class name and its argument: either a value
    ([KeyError(alias)]) or a message built with [str.format], kept as the
    template and the values formatted into it. *)
Inductive Exn : Type :=
| ExcValue (cls : string) (v : PyVal)
| ExcFormat (cls : string) (template : string) (args : list PyVal).

Definition exc_class (e : Exn) : string :=
  match e with
  | ExcValue cls _ => cls
  | ExcFormat cls _ _ => cls
  end.

Definition exc_args (e : Exn) : list PyVal :=
  match e with
  | ExcValue _ v => [v]
  | ExcFormat _ _ args => args
  end.

Inductive result (A : Type) : Type :=
| Ok (a : A)
| Err (e : Exn).
Arguments Ok {A} a.
Arguments Err {A} e.

Definition rbind {A B} (r : result A) (k : A -> result B) : result B :=
  match r with
  | Ok a => k a
  | Err e => Err e
  end.

(** ** Dictionaries *)

(** A Python [dict] keeps its keys in insertion order, so it is an
    association list; [dict_set] overwrites in place and appends new keys. *)
Definition dict : Type := list (string * PyVal).

Fixpoint dict_get (k : string) (d : dict) : option PyVal :=
  match d with
  | [] => None
  | (k', v) :: rest => if String.eqb k k' then Some v else dict_get k rest
  end.

Definition dict_contains (k : string) (d : dict) : bool :=
  match dict_get k d with
  | Some _ => true
  | None => false
  end.

Fixpoint dict_set (k : string) (v : PyVal) (d : dict) : dict :=
  match d with
  | [] => [(k, v)]
  | (k', v') :: rest =>
      if String.eqb k k' then (k', v) :: rest else (k', v') :: dict_set k v rest
  end.

(** [d.update(other)] *)
Definition dict_update (d other : dict) : dict :=
  fold_left (fun acc kv => dict_set (fst kv) (snd kv) acc) other d.

(** [d.setdefault(k, v)], for its effect on [d] *)
Definition dict_setdefault (k : string) (v : PyVal) (d : dict) : dict :=
  if dict_contains k d then d else dict_set k v d.

(** [d[k]] *)
Definition dict_getitem (k : string) (d : dict) : result PyVal :=
  match dict_get k d with
  | Some v => Ok v
  | None => Err (ExcValue "KeyError" (VStr k))
  end.

(** Two dictionaries with the same key/value pairs, whatever the insertion
    order. *)
Definition dict_equiv (d1 d2 : dict) : Prop :=
  forall k, dict_get k d1 = dict_get k d2.

(** ** Strings and [os.path] (posixpath) *)

Definition sep : ascii := "/"%char.
Definition extsep : ascii := "."%char.

(** A [str] is kept as its UTF-8 bytes.  The separator and the dot are
    single bytes that occur in no multi-byte sequence, so the path functions
    below read the bytes as [os.path] reads the text.  [str.lower] is another
    matter: on a text of ASCII characters it maps the letters A-Z and nothing
    else, which [lower_ascii] does; on any other text it follows the Unicode
    case tables, and is left to the interpreter (see [str_lower]). *)
Definition ascii_lower (c : ascii) : ascii :=
  let n := nat_of_ascii c in
  if (andb (Nat.leb 65 n) (Nat.leb n 90)) then ascii_of_nat (n + 32) else c.

Fixpoint lower_ascii (s : string) : string :=
  match s with
  | EmptyString => EmptyString
  | String c rest => String (ascii_lower c) (lower_ascii rest)
  end.

(** [s.isascii()] *)
Fixpoint is_ascii (s : string) : bool :=
  match s with
  | EmptyString => true
  | String c rest => Nat.ltb (nat_of_ascii c) 128 && is_ascii rest
  end.

Fixpoint contains_char (c : ascii) (s : string) : bool :=
  match s with
  | EmptyString => false
  | String c' rest => Ascii.eqb c c' || contains_char c rest
  end.

(** [(p[:i], p[i:])] for [i = p.rfind(c) + 1]. *)
Fixpoint rpartition_after (c : ascii) (p : string) : string * string :=
  match p with
  | EmptyString => (EmptyString, EmptyString)
  | String a rest =>
      if contains_char c rest then
        let (h, t) := rpartition_after c rest in (String a h, t)
      else if Ascii.eqb a c then (String a EmptyString, rest)
      else (EmptyString, String a rest)
  end.

(** [s.rstrip(c)] *)
Fixpoint rstrip (c : ascii) (s : string) : string :=
  match s with
  | EmptyString => EmptyString
  | String a rest =>
      match rstrip c rest with
      | EmptyString => if Ascii.eqb a c then EmptyString else String a EmptyString
      | r => String a r
      end
  end.

Fixpoint all_char (c : ascii) (s : string) : bool :=
  match s with
  | EmptyString => true
  | String a rest => Ascii.eqb a c && all_char c rest
  end.

Definition is_empty (s : string) : bool :=
  match s with
  | EmptyString => true
  | _ => false
  end.

(** [os.path.split] *)
Definition os_path_split (p : string) : string * string :=
  let (head, tail) := rpartition_after sep p in
  if negb (is_empty head) && negb (all_char sep head)
  then (rstrip sep head, tail)
  else (head, tail).

(** [s[:-1]] for a non-empty [s] *)
Fixpoint drop_last (s : string) : string :=
  match s with
  | EmptyString => EmptyString
  | String _ EmptyString => EmptyString
  | String a rest => String a (drop_last rest)
  end.

(** [os.path.splitext]: the extension starts at the last dot of the last
    path component, unless only dots precede it there. *)
Definition os_path_splitext (p : string) : string * string :=
  let (dir, base) := rpartition_after sep p in
  if contains_char extsep base then
    let (stem_dot, ext) := rpartition_after extsep base in
    let stem := drop_last stem_dot in
    if all_char extsep stem then (p, EmptyString)
    else (dir ++ stem, String extsep ext)
  else (p, EmptyString).

Definition starts_with (c : ascii) (s : string) : bool :=
  match s with
  | String a _ => Ascii.eqb a c
  | EmptyString => false
  end.

Fixpoint ends_with (c : ascii) (s : string) : bool :=
  match s with
  | EmptyString => false
  | String a EmptyString => Ascii.eqb a c
  | String _ rest => ends_with c rest
  end.

(** [os.path.join(a, *p)] *)
Definition os_path_join (a : string) (p : list string) : string :=
  fold_left
    (fun path b =>
       if starts_with sep b then b
       else if is_empty path || ends_with sep path then path ++ b
       else path ++ String sep b)
    p a.

(** [s[1:]] *)
Definition drop_first (s : string) : string :=
  match s with
  | EmptyString => EmptyString
  | String _ rest => rest
  end.

(** ['_'.join(tokens)] *)
Definition join_tokens (tokens : list string) : string :=
  String.concat "_" tokens.

(** ** Numbers: [float], [min], [max] *)

Definition Qltb (x y : Q) : bool := negb (Qle_bool y x).

(** [min(a, b)] and [max(a, b)]: the first argument is kept unless the second
    is strictly smaller (larger). *)
Definition py_min (a b : Q) : Q := if Qltb b a then b else a.
Definition py_max (a b : Q) : Q := if Qltb a b then b else a.

(** An [int] converts to a float when it rounds to a finite double, that is
    when its magnitude is below [2^1024 - 2^970]; beyond that [float] raises
    [OverflowError].  The conversion is monotone and keeps zero and the sign,
    so the exact value stands for the rounded one in the comparisons below. *)
Definition float_overflow_bound : Z := (2 ^ 1024 - 2 ^ 970)%Z.

Definition TypeError (what : string) : Exn := ExcFormat "TypeError" what [].
Definition ValueError (what : string) : Exn := ExcFormat "ValueError" what [].

Section Float.
(** [float(s)] for a string: the interpreter's parser, [None] when it
    raises [ValueError]. *)
Variable float_of_str : string -> option Q.

(** [float(v)] *)
Definition py_float (v : PyVal) : result Q :=
  match v with
  | VNone => Err (TypeError "float() argument must be a string or a real number")
  | VBool b => Ok (if b then 1 else 0)
  | VInt z =>
      if (Z.abs z <? float_overflow_bound)%Z then Ok (inject_Z z)
      else Err (ExcFormat "OverflowError" "int too large to convert to float" [])
  | VFloat q => Ok q
  | VStr s =>
      match float_of_str s with
      | Some q => Ok q
      | None => Err (ValueError "could not convert string to float")
      end
  | VSeq _ => Err (TypeError "float() argument must be a string or a real number")
  end.
End Float.

(** [except (TypeError, ValueError)] *)
Definition caught_by_size_loop (e : Exn) : bool :=
  String.eqb (exc_class e) "TypeError" || String.eqb (exc_class e) "ValueError".

Fixpoint chars_of (s : string) : list PyVal :=
  match s with
  | EmptyString => []
  | String c rest => VStr (String c EmptyString) :: chars_of rest
  end.

(** The items a [for] loop, or a star-unpacking, draws from a value. *)
Definition py_iter (v : PyVal) : result (list PyVal) :=
  match v with
  | VSeq items => Ok items
  | VStr s => Ok (chars_of s)
  | _ => Err (TypeError "object is not iterable")
  end.

(** [msg.format] applied to the unpacked size: the template names the
    positional fields 0 and 1, so both must exist. *)
Definition invalid_size_msg : string :=
  "The source image has an invalid size ({0}x{1})".

Definition format_invalid_size (items : list PyVal) : Exn :=
  match items with
  | _ :: _ :: _ => ExcFormat "EasyThumbnailsError" invalid_size_msg items
  | _ =>
      ExcFormat "IndexError"
        "Replacement index {0} out of range for positional args tuple"
        [VInt (Z.of_nat (List.length items))]
  end.

Definition invalid_image_msg : string :=
  "The source file does not appear to be an image: '{name}'".

(** ** Effects: calls to the collaborators *)

(** The pipeline calls into modules outside [files.py]: the alias registry,
    the imaging engine, the transparency test, the namer.  Each call is
    recorded, in order, so that a statement can say which collaborators were
    reached.  Storage is never called by the functions below. *)
Inductive Event : Type :=
| EvAliasesGet (alias : string) (target : option string)
| EvGenerateSourceImage (fail_silently : bool)
| EvProcessImage
| EvIsTransparent
| EvImportString (dotted_path : string)
| EvNamer
| EvSavePilImage (filename : string).

Definition M (A : Type) : Type := list Event * result A.

Definition ret {A} (a : A) : M A := ([], Ok a).
Definition raise {A} (e : Exn) : M A := ([], Err e).
Definition lift {A} (r : result A) : M A := ([], r).
Definition call {A} (ev : Event) (r : result A) : M A := ([ev], r).

Definition bind {A B} (m : M A) (k : A -> M B) : M B :=
  match m with
  | (log, Ok a) => let (log', r) := k a in ((log ++ log')%list, r)
  | (log, Err e) => (log, Err e)
  end.

Notation "x <- m ;; k" := (bind m (fun x => k))
  (at level 61, m at next level, right associativity).

Definition trace {A} (m : M A) : list Event := fst m.
Definition outcome {A} (m : M A) : result A := snd m.

(** ** Option arguments *)

(** What callers pass as [thumbnail_options]: [None], a plain mapping, or an
    instance of [ThumbnailOptions] (itself a [dict]). *)
Inductive OptionsArg : Type :=
| ArgNone
| ArgDict (d : dict)
| ArgThumbnailOptions (o : dict).

(** Truth value of an options argument ([not options]). *)
Definition options_truthy (x : OptionsArg) : bool :=
  match x with
  | ArgNone => false
  | ArgDict d | ArgThumbnailOptions d =>
      match d with [] => false | _ => true end
  end.

(** [options[k] = v] *)
Definition options_setitem (k : string) (v : PyVal) (x : OptionsArg) : result OptionsArg :=
  match x with
  | ArgNone => Err (TypeError "'NoneType' object does not support item assignment")
  | ArgDict d => Ok (ArgDict (dict_set k v d))
  | ArgThumbnailOptions d => Ok (ArgThumbnailOptions (dict_set k v d))
  end.

(** [k in options] *)
Definition options_contains (k : string) (x : OptionsArg) : result bool :=
  match x with
  | ArgNone => Err (TypeError "argument of type 'NoneType' is not iterable")
  | ArgDict d | ArgThumbnailOptions d => Ok (dict_contains k d)
  end.

(** Modelled from the spec: the constructor of [ThumbnailOptions]
    ([easy_thumbnails/options.py] is not among the sources).  It is a [dict]
    built from the positional mapping (a copy of it, when there is one)
    updated with the keyword arguments, then filled
    with the defaults for the keys still absent: the raw options are merged
    over the defaults and win on conflict. *)
Definition ThumbnailOptions_new (defaults : dict) (arg : option dict) (kwargs : dict) : dict :=
  let raw := dict_update (match arg with Some d => d | None => [] end) kwargs in
  fold_left (fun acc kv => dict_setdefault (fst kv) (snd kv) acc) defaults raw.

(** ** Settings and the thumbnailer *)

(** [THUMBNAIL_PRESERVE_EXTENSIONS]: [None], a boolean or a collection of
    extensions. *)
Inductive PreserveExtensions : Type :=
| PreserveNone
| PreserveBool (b : bool)
| PreserveList (exts : list string)
| PreserveTuple (exts : list string)
| PreserveSet (exts : list string).

Section Files.
(** Source files, storages, decoded images and encoded thumbnails are
    opaque to [files.py]. *)
Variables File Storage Image ThumbnailFile : Type.

(** The attributes [__init__] sets, apart from the namer. *)
Record ThumbnailerAttrs : Type := mkAttrs {
  file : option File;
  name : string;
  source_storage : option Storage;
  thumbnail_storage : option Storage;
  remote_source : bool;
  alias_target : option string;
  generate : bool;
  source_generators : option (list string);
  thumbnail_processors : option (list string);
  thumbnail_basedir : string;
  thumbnail_subdir : string;
  thumbnail_prefix : string;
  thumbnail_quality : PyVal;
  thumbnail_extension : string;
  thumbnail_preserve_extensions : PreserveExtensions;
  thumbnail_transparency_extension : string;
  thumbnail_check_cache_miss : bool;
}.

(** A naming strategy, called with keyword arguments [thumbnailer],
    [source_filename], [thumbnail_extension], [thumbnail_options] and
    [prepared_options]. *)
Definition NamerFn : Type :=
  ThumbnailerAttrs -> string -> string -> dict -> list string -> result string.

(** [thumbnail_namer] is a dotted path or the callable itself. *)
Inductive Namer : Type :=
| NamerPath (dotted_path : string)
| NamerCallable (f : NamerFn).

Record Thumbnailer : Type := mkThumbnailer {
  attrs :> ThumbnailerAttrs;
  thumbnail_namer : Namer;
}.

(** [easy_thumbnails.conf.settings], as far as [__init__] reads it. *)
Record Settings : Type := mkSettings {
  THUMBNAIL_BASEDIR : string;
  THUMBNAIL_SUBDIR : string;
  THUMBNAIL_PREFIX : string;
  THUMBNAIL_QUALITY : PyVal;
  THUMBNAIL_EXTENSION : string;
  THUMBNAIL_PRESERVE_EXTENSIONS : PreserveExtensions;
  THUMBNAIL_TRANSPARENCY_EXTENSION : string;
  THUMBNAIL_CHECK_CACHE_MISS : bool;
  THUMBNAIL_NAMER : Namer;
}.

(** The collaborators of [files.py], none of which is among the sources,
    and the two interpreter operations left abstract. *)
Record Collaborators : Type := mkCollaborators {
  settings : Settings;
  (** what the [ThumbnailOptions] constructor fills in *)
  default_options : dict;
  (** [ThumbnailOptions.prepared_options] *)
  prepared_options : dict -> result (list string);
  (** [aliases.get(alias, target=...)] *)
  aliases_get : string -> option string -> OptionsArg;
  (** [engine.generate_source_image(file, options, generators, fail_silently=...)] *)
  generate_source_image :
    option File -> dict -> option (list string) -> bool -> result (option Image);
  (** [engine.process_image(image, options, processors)] *)
  process_image : Image -> dict -> option (list string) -> result Image;
  (** [utils.is_transparent(image)] *)
  is_transparent : Image -> bool;
  (** [engine.save_pil_image(image, filename=..., quality=..., subsampling=...)] *)
  save_pil_image : Image -> string -> PyVal -> PyVal -> result ThumbnailFile;
  (** [import_string(dotted_path)] *)
  import_string : string -> result NamerFn;
  (** [template % {'opts': text}] *)
  str_mod : string -> string -> result string;
  (** [float(s)] for a string [s] *)
  float_of_str : string -> option Q;
  (** [s.lower()] for a text [s] with characters outside ASCII *)
  unicode_lower : string -> string;
}.

Variable env : Collaborators.

(** ** [Thumbnailer.__init__] and [get_thumbnailer] *)

(** [Thumbnailer(file=..., name=..., source_storage=..., thumbnail_storage=...,
    remote_source=..., generate=...)]: the class defines none of the
    [thumbnail_*] attributes, so each is read from the settings. *)
Definition Thumbnailer_init (file : option File) (name : string)
    (source_storage thumbnail_storage : option Storage)
    (remote_source generate : bool) : Thumbnailer :=
  let s := settings env in
  {| attrs :=
       {| file := file;
          name := name;
          source_storage := source_storage;
          thumbnail_storage := thumbnail_storage;
          remote_source := remote_source;
          alias_target := None;
          generate := generate;
          source_generators := None;
          thumbnail_processors := None;
          thumbnail_basedir := THUMBNAIL_BASEDIR s;
          thumbnail_subdir := THUMBNAIL_SUBDIR s;
          thumbnail_prefix := THUMBNAIL_PREFIX s;
          thumbnail_quality := THUMBNAIL_QUALITY s;
          thumbnail_extension := THUMBNAIL_EXTENSION s;
          thumbnail_preserve_extensions := THUMBNAIL_PRESERVE_EXTENSIONS s;
          thumbnail_transparency_extension := THUMBNAIL_TRANSPARENCY_EXTENSION s;
          thumbnail_check_cache_miss := THUMBNAIL_CHECK_CACHE_MISS s |};
     thumbnail_namer := THUMBNAIL_NAMER s |}.

(** What [get_thumbnailer] tells apart in its first argument. *)
Inductive ObjKind : Type :=
| KNone
| KStr (s : string)
| KThumbnailer (t : Thumbnailer)
| KFileLike (f : File).

(** An object: its kind and, when it has one, the value of its
    [easy_thumbnails_thumbnailer] attribute (taken, as the docstring does, to
    be a thumbnailer). *)
Record PyObj : Type := mkObj {
  kind : ObjKind;
  easy_thumbnails_thumbnailer : option Thumbnailer;
}.

Definition relative_name_msg : string :=
  "If object is not a FieldFile or Thumbnailer instance, the relative name must be provided".

Definition get_thumbnailer (obj : PyObj) (relative_name : option string)
  : result Thumbnailer :=
  match easy_thumbnails_thumbnailer obj with
  | Some attr => Ok attr
  | None =>
      match kind obj with
      | KThumbnailer t => Ok t
      | k =>
          let source_storage : option Storage := None in
          let (relative_name, file) :=
            match k with
            | KStr s => (Some s, None)
            | KFileLike f => (relative_name, Some f)
            | _ => (relative_name, None)
            end in
          match relative_name with
          | None | Some EmptyString => Err (ExcFormat "ValueError" relative_name_msg [])
          | Some rel =>
              Ok (Thumbnailer_init file rel source_storage None
                    (match file with Some _ => true | None => false end) true)
          end
      end
  end.

(** ** [Thumbnailer.get_options] *)

Definition get_options (t : Thumbnailer) (thumbnail_options : OptionsArg)
    (kwargs : dict) : result dict :=
  match thumbnail_options with
  | ArgThumbnailOptions o => Ok o
  | _ =>
      let args :=
        match thumbnail_options with
        | ArgDict d => Some d
        | _ => None
        end in
      let opts := ThumbnailOptions_new (default_options env) args kwargs in
      rbind (options_contains "quality" thumbnail_options) (fun has_quality =>
      if negb has_quality
      then Ok (dict_set "quality" (thumbnail_quality t) opts)
      else Ok opts)
  end.

(** ** The size sanity check of [generate_thumbnail] *)

(** The [for dim in orig_size] loop over [(min_dim, max_dim)]. *)
Fixpoint size_loop (dims : list PyVal) (acc : Q * Q) : result (Q * Q) :=
  match dims with
  | [] => Ok acc
  | dim :: rest =>
      match py_float (float_of_str env) dim with
      | Ok f => size_loop rest (py_min (fst acc) f, py_max (snd acc) f)
      | Err e => if caught_by_size_loop e then size_loop rest acc else Err e
      end
  end.

Definition size_sanity_check (orig_size : PyVal) : result unit :=
  rbind (py_iter orig_size) (fun dims =>
  rbind (size_loop dims (0, 0)) (fun acc =>
  let (min_dim, max_dim) := acc in
  if Qeq_bool max_dim 0 || Qltb min_dim 0
  then Err (format_invalid_size dims)
  else Ok tt)).

(** ** [Thumbnailer.get_thumbnail_name] *)

(** [source_extension in preserve_extensions], guarded by the [isinstance]
    test for a list or a tuple, or [preserve_extensions is True]. *)
Definition preserves_extension (p : PreserveExtensions) (source_extension : string) : bool :=
  match p with
  | PreserveBool true => true
  | PreserveList exts | PreserveTuple exts => existsb (String.eqb source_extension) exts
  | _ => false
  end.

(** [extension or 'jpg'] *)
Definition or_jpg (extension : string) : string :=
  if is_empty extension then "jpg" else extension.

(** [s.lower()] *)
Definition str_lower (s : string) : string :=
  if is_ascii s then lower_ascii s else unicode_lower env s.

(** The extension chosen by [get_thumbnail_name]. *)
Definition choose_extension (t : Thumbnailer) (source_filename : string)
    (transparent : bool) : string :=
  let source_extension := str_lower (drop_first (snd (os_path_splitext source_filename))) in
  let extension :=
    if preserves_extension (thumbnail_preserve_extensions t) source_extension
    then source_extension
    else if transparent then thumbnail_transparency_extension t
    else thumbnail_extension t in
  or_jpg extension.

(** The namer to call: imported when [thumbnail_namer] is a string. *)
Definition resolve_namer (t : Thumbnailer) : M NamerFn :=
  match thumbnail_namer t with
  | NamerPath dotted => call (EvImportString dotted) (import_string env dotted)
  | NamerCallable f => ret f
  end.

Definition get_thumbnail_name (t : Thumbnailer) (thumbnail_options : OptionsArg)
    (transparent : bool) : M string :=
  thumbnail_options <- lift (get_options t thumbnail_options []) ;;
  let (path, source_filename) := os_path_split (name t) in
  let extension := choose_extension t source_filename transparent in
  prepared_opts <- lift (prepared_options env thumbnail_options) ;;
  let opts_text := join_tokens prepared_opts in
  basedir <- lift (str_mod env (thumbnail_basedir t) opts_text) ;;
  subdir <- lift (str_mod env (thumbnail_subdir t) opts_text) ;;
  namer_func <- resolve_namer t ;;
  filename <- call EvNamer
    (namer_func (attrs t) source_filename extension thumbnail_options prepared_opts) ;;
  let filename := thumbnail_prefix t ++ filename in
  ret (os_path_join basedir [path; subdir; filename]).

(** ** [Thumbnailer.generate_thumbnail] *)

(** The body of [generate_thumbnail] from the call to the source generators
    on, that is once the size check has passed. *)
Definition after_size_check (t : Thumbnailer) (thumbnail_options : dict)
    (silent_template_exception : bool) : M ThumbnailFile :=
  image <- call (EvGenerateSourceImage silent_template_exception)
    (generate_source_image env (file t) thumbnail_options (source_generators t)
       silent_template_exception) ;;
  match image with
  | None => raise (ExcFormat "InvalidImageFormatError" invalid_image_msg [VStr (name t)])
  | Some image =>
      thumbnail_image <- call EvProcessImage
        (process_image env image thumbnail_options (thumbnail_processors t)) ;;
      transparent <- call EvIsTransparent (Ok (is_transparent env thumbnail_image)) ;;
      filename <- get_thumbnail_name t (ArgThumbnailOptions thumbnail_options) transparent ;;
      quality <- lift (dict_getitem "quality" thumbnail_options) ;;
      subsampling <- lift (dict_getitem "subsampling" thumbnail_options) ;;
      call (EvSavePilImage filename)
        (save_pil_image env thumbnail_image filename quality subsampling)
  end.

Definition generate_thumbnail (t : Thumbnailer) (thumbnail_options : OptionsArg)
    (silent_template_exception : bool) : M ThumbnailFile :=
  thumbnail_options <- lift (get_options t thumbnail_options []) ;;
  orig_size <- lift (dict_getitem "size" thumbnail_options) ;;
  _ <- lift (size_sanity_check orig_size) ;;
  after_size_check t thumbnail_options silent_template_exception.

(** ** [Thumbnailer.get_thumbnail] *)

(** [save] and [generate] are accepted and not read. *)
Definition get_thumbnail (t : Thumbnailer) (thumbnail_options : OptionsArg)
    (save : bool) (generate : option bool) (silent_template_exception : bool)
  : M ThumbnailFile :=
  thumbnail_options <- lift (get_options t thumbnail_options []) ;;
  generate_thumbnail t (ArgThumbnailOptions thumbnail_options) silent_template_exception.

(** ** [Thumbnailer.__getitem__] *)

Definition Thumbnailer_getitem (t : Thumbnailer) (alias : string) : M ThumbnailFile :=
  options <- call (EvAliasesGet alias (alias_target t))
    (Ok (aliases_get env alias (alias_target t))) ;;
  if negb (options_truthy options) then raise (ExcValue "KeyError" (VStr alias))
  else
    options <- lift (options_setitem "ALIAS" (VStr alias) options) ;;
    get_thumbnail t options true None true.

End Files.

Arguments mkAttrs {File Storage}.
Arguments file {File Storage} t.
Arguments name {File Storage} t.
Arguments source_storage {File Storage} t.
Arguments thumbnail_storage {File Storage} t.
Arguments remote_source {File Storage} t.
Arguments alias_target {File Storage} t.
Arguments generate {File Storage} t.
Arguments source_generators {File Storage} t.
Arguments thumbnail_processors {File Storage} t.
Arguments thumbnail_basedir {File Storage} t.
Arguments thumbnail_subdir {File Storage} t.
Arguments thumbnail_prefix {File Storage} t.
Arguments thumbnail_quality {File Storage} t.
Arguments thumbnail_extension {File Storage} t.
Arguments thumbnail_preserve_extensions {File Storage} t.
Arguments thumbnail_transparency_extension {File Storage} t.
Arguments thumbnail_check_cache_miss {File Storage} t.
Arguments NamerPath {File Storage} dotted_path.
Arguments NamerCallable {File Storage} f.
Arguments mkThumbnailer {File Storage}.
Arguments attrs {File Storage} t.
Arguments thumbnail_namer {File Storage} t.
Arguments mkSettings {File Storage}.
Arguments THUMBNAIL_BASEDIR {File Storage} s.
Arguments THUMBNAIL_SUBDIR {File Storage} s.
Arguments THUMBNAIL_PREFIX {File Storage} s.
Arguments THUMBNAIL_QUALITY {File Storage} s.
Arguments THUMBNAIL_EXTENSION {File Storage} s.
Arguments THUMBNAIL_PRESERVE_EXTENSIONS {File Storage} s.
Arguments THUMBNAIL_TRANSPARENCY_EXTENSION {File Storage} s.
Arguments THUMBNAIL_CHECK_CACHE_MISS {File Storage} s.
Arguments THUMBNAIL_NAMER {File Storage} s.
Arguments mkCollaborators {File Storage Image ThumbnailFile}.
Arguments settings {File Storage Image ThumbnailFile} c.
Arguments default_options {File Storage Image ThumbnailFile} c.
Arguments prepared_options {File Storage Image ThumbnailFile} c.
Arguments aliases_get {File Storage Image ThumbnailFile} c.
Arguments generate_source_image {File Storage Image ThumbnailFile} c.
Arguments process_image {File Storage Image ThumbnailFile} c.
Arguments is_transparent {File Storage Image ThumbnailFile} c.
Arguments save_pil_image {File Storage Image ThumbnailFile} c.
Arguments import_string {File Storage Image ThumbnailFile} c.
Arguments str_mod {File Storage Image ThumbnailFile} c.
Arguments float_of_str {File Storage Image ThumbnailFile} c.
Arguments Thumbnailer_init {File Storage Image ThumbnailFile} env.
Arguments KNone {File Storage}.
Arguments KStr {File Storage} s.
Arguments KThumbnailer {File Storage} t.
Arguments KFileLike {File Storage} f.
Arguments mkObj {File Storage}.
Arguments kind {File Storage} p.
Arguments easy_thumbnails_thumbnailer {File Storage} p.
Arguments get_thumbnailer {File Storage Image ThumbnailFile} env obj relative_name.
Arguments get_options {File Storage Image ThumbnailFile} env t thumbnail_options kwargs.
Arguments size_loop {File Storage Image ThumbnailFile} env dims acc.
Arguments size_sanity_check {File Storage Image ThumbnailFile} env orig_size.
Arguments unicode_lower {File Storage Image ThumbnailFile} c.
Arguments str_lower {File Storage Image ThumbnailFile} env s.
Arguments choose_extension {File Storage Image ThumbnailFile} env t source_filename transparent.
Arguments resolve_namer {File Storage Image ThumbnailFile} env t.
Arguments get_thumbnail_name {File Storage Image ThumbnailFile} env t thumbnail_options transparent.
Arguments after_size_check {File Storage Image ThumbnailFile} env t thumbnail_options silent_template_exception.
Arguments generate_thumbnail {File Storage Image ThumbnailFile} env t thumbnail_options silent_template_exception.
Arguments get_thumbnail {File Storage Image ThumbnailFile} env t thumbnail_options save generate silent_template_exception.
Arguments Thumbnailer_getitem {File Storage Image ThumbnailFile} env t alias.

(** ** A concrete configuration

    An instance of the collaborators on which the functions above can be
    run: a namer in the style of the package's default one, a token list
    read off the options in a fixed key order, an engine that decodes every
    source but the one marked as unreadable. *)
Module Demo.

Record DemoImage : Type := mkImage {
  has_alpha : bool;
  pixels : string;
}.

Record DemoThumbnail : Type := mkThumbnail {
  saved_as : string;
  saved_quality : PyVal;
  saved_subsampling : PyVal;
  saved_pixels : string;
}.

(** [str(v)] for the values that appear in tokens. *)
Definition render (v : PyVal) : string :=
  match v with
  | VNone => "None"
  | VBool true => "True"
  | VBool false => "False"
  | VInt z => DecimalString.NilZero.string_of_int (Z.to_int z)
  | VStr s => s
  | _ => "?"
  end.

Definition truthy (v : PyVal) : bool :=
  match v with
  | VNone | VBool false | VInt 0%Z | VStr EmptyString | VSeq [] => false
  | _ => true
  end.

(** The option keys that become flag tokens, in their fixed order. *)
Definition flag_keys : list string := ["bw"; "crop"; "detail"; "sharpen"; "upscale"].

Definition tokens_of (o : dict) : result (list string) :=
  rbind (dict_getitem "size" o) (fun size =>
  rbind (dict_getitem "quality" o) (fun quality =>
  let size_token :=
    match size with
    | VSeq (w :: h :: _) => render w ++ "x" ++ render h
    | _ => "?"
    end in
  let flags :=
    filter (fun k => match dict_get k o with Some v => truthy v | None => false end)
      flag_keys in
  Ok (size_token :: ("q" ++ render quality) :: flags))).

(** [template % {'opts': text}] for templates made of literal text, [%%] and
    [%(opts)s]; the scanner reads one character at a time. *)
Inductive ScanMode : Type :=
| Literal
| AfterPercent
| InKey (key : string)
| AfterKey (key : string).

Fixpoint scan (mode : ScanMode) (text : string) (template : string) : result string :=
  match template with
  | EmptyString =>
      match mode with
      | Literal => Ok EmptyString
      | _ => Err (ValueError "incomplete format")
      end
  | String c rest =>
      match mode with
      | Literal =>
          if Ascii.eqb c "%" then scan AfterPercent text rest
          else rbind (scan Literal text rest) (fun r => Ok (String c r))
      | AfterPercent =>
          if Ascii.eqb c "%" then rbind (scan Literal text rest) (fun r => Ok (String c r))
          else if Ascii.eqb c "(" then scan (InKey EmptyString) text rest
          else Err (ValueError "unsupported format character")
      | InKey key =>
          if Ascii.eqb c ")" then scan (AfterKey key) text rest
          else scan (InKey (key ++ String c EmptyString)) text rest
      | AfterKey key =>
          if Ascii.eqb c "s" then
            if String.eqb key "opts"
            then rbind (scan Literal text rest) (fun r => Ok (text ++ r))
            else Err (ExcValue "KeyError" (VStr key))
          else Err (ValueError "unsupported format character")
      end
  end.

Definition fill_template (template text : string) : result string :=
  scan Literal text template.

Definition parse_float (s : string) : option Q :=
  match DecimalString.NilZero.int_of_string s with
  | Some i => Some (inject_Z (Z.of_int i))
  | None => None
  end.

(** A namer in the style of [easy_thumbnails.namers.default]. *)
Definition default_namer : NamerFn string unit :=
  fun _ source_filename thumbnail_extension _ prepared =>
    Ok (source_filename ++ "." ++ join_tokens prepared ++ "." ++ thumbnail_extension).

(** A namer in the style of [easy_thumbnails.namers.alias]. *)
Definition alias_namer : NamerFn string unit :=
  fun _ source_filename thumbnail_extension o _ =>
    rbind (dict_getitem "ALIAS" o) (fun a =>
    Ok (source_filename ++ "." ++ render a ++ "." ++ thumbnail_extension)).

Definition import_namer (dotted : string) : result (NamerFn string unit) :=
  if String.eqb dotted "easy_thumbnails.namers.default" then Ok default_namer
  else if String.eqb dotted "easy_thumbnails.namers.alias" then Ok alias_namer
  else Err (ExcFormat "ImportError" "Module does not define the attribute" [VStr dotted]).

Definition lookup_alias (alias : string) (target : option string) : OptionsArg :=
  if String.eqb alias "small" then ArgDict [("size", VSeq [VInt 100; VInt 100])]
  else if String.eqb alias "blank" then ArgDict []
  else ArgNone.

Definition decode (f : option string) (o : dict)
    (generators : option (list string)) (fail_silently : bool)
  : result (option DemoImage) :=
  match f with
  | None => Ok None
  | Some content =>
      if String.eqb content "unreadable" then
        if fail_silently then Ok None
        else Err (ExcFormat "NoSourceGenerator" "Tried generators without success" [])
      else Ok (Some (mkImage (String.eqb content "rgba") content))
  end.

Definition demo_settings : Settings string unit :=
  {| THUMBNAIL_BASEDIR := "thumbs";
     THUMBNAIL_SUBDIR := "%(opts)s";
     THUMBNAIL_PREFIX := "t_";
     THUMBNAIL_QUALITY := VInt 85;
     THUMBNAIL_EXTENSION := "jpg";
     THUMBNAIL_PRESERVE_EXTENSIONS := PreserveNone;
     THUMBNAIL_TRANSPARENCY_EXTENSION := "png";
     THUMBNAIL_CHECK_CACHE_MISS := false;
     THUMBNAIL_NAMER := NamerPath "easy_thumbnails.namers.default" |}.

Definition env : Collaborators string unit DemoImage DemoThumbnail :=
  {| settings := demo_settings;
     default_options := [("quality", VInt 85); ("subsampling", VInt 2)];
     prepared_options := tokens_of;
     aliases_get := lookup_alias;
     generate_source_image := decode;
     process_image := fun img _ _ => Ok img;
     is_transparent := has_alpha;
     save_pil_image := fun img filename quality subsampling =>
       Ok (mkThumbnail filename quality subsampling (pixels img));
     import_string := import_namer;
     str_mod := fill_template;
     float_of_str := parse_float;
     unicode_lower := fun s => s |}.

(** [get_thumbnailer(file, 'a/b/photo.png')] and [get_thumbnailer('photo.png')] *)
Definition photo : Thumbnailer string unit :=
  Thumbnailer_init env (Some "rgb") "a/b/photo.png" None None true true.

Definition named_photo : Thumbnailer string unit :=
  Thumbnailer_init env None "photo.png" None None false true.

Definition size_100 : dict := [("size", VSeq [VInt 100; VInt 100]); ("crop", VBool true)].

(** The same source, with the extensions to preserve given as a set. *)
Definition photo_png_set : Thumbnailer string unit :=
  {| attrs :=
       {| file := None;
          name := "photo.png";
          source_storage := None;
          thumbnail_storage := None;
          remote_source := false;
          alias_target := None;
          generate := true;
          source_generators := None;
          thumbnail_processors := None;
          thumbnail_basedir := "";
          thumbnail_subdir := "";
          thumbnail_prefix := "";
          thumbnail_quality := VInt 85;
          thumbnail_extension := "jpg";
          thumbnail_preserve_extensions := PreserveSet ["png"];
          thumbnail_transparency_extension := "png";
          thumbnail_check_cache_miss := false |};
     thumbnail_namer := NamerCallable default_namer |}.

(** An object that is no thumbnailer but carries one in its
    [easy_thumbnails_thumbnailer] attribute. *)
Definition wrapper : PyObj string unit :=
  {| kind := KFileLike "rgb"; easy_thumbnails_thumbnailer := Some named_photo |}.

Definition empty_string : PyObj string unit :=
  {| kind := KStr ""; easy_thumbnails_thumbnailer := None |}.

Definition size_100_reordered : dict :=
  [("crop", VBool true); ("size", VSeq [VInt 100; VInt 100])].

Definition size_zero : dict := [("size", VSeq [VInt 0; VInt 0])].

End Demo.

(** ** Notions used in the statements *)

(** The dimensions of a size that [float] converts; the others are skipped. *)
Definition coerced_dims (float_of_str : string -> option Q) (dims : list PyVal) : list Q :=
  flat_map (fun dim => match py_float float_of_str dim with Ok f => [f] | Err _ => [] end) dims.

(** The maximum and the minimum across the dimensions, an absent dimension
    counting as 0. *)
Definition dims_max (ds : list Q) : Q := fold_left Qmax ds 0.
Definition dims_min (ds : list Q) : Q := fold_left Qmin ds 0.

(** [float] raises neither [TypeError] nor [ValueError] but
    [OverflowError] on this value. *)
Definition overflows (v : PyVal) : bool :=
  match v with
  | VInt z => negb (Z.abs z <? float_overflow_bound)%Z
  | _ => false
  end.

(** The preserve-extensions test as the extension policy words it: the
    setting is true, or is a list or a set containing the source extension. *)
Definition preserves_extension_as_worded (p : PreserveExtensions) (source_extension : string) : bool :=
  match p with
  | PreserveBool true => true
  | PreserveList exts | PreserveTuple exts | PreserveSet exts =>
      existsb (String.eqb source_extension) exts
  | _ => false
  end.

(** The extension chosen under that wording of the test. *)
Definition choose_extension_as_worded {File Storage Image ThumbnailFile}
    (env : Collaborators File Storage Image ThumbnailFile) (t : Thumbnailer File Storage)
    (source_filename : string) (transparent : bool) : string :=
  let source_extension :=
    str_lower env (drop_first (snd (os_path_splitext source_filename))) in
  or_jpg
    (if preserves_extension_as_worded (thumbnail_preserve_extensions t) source_extension
     then source_extension
     else if transparent then thumbnail_transparency_extension t
     else thumbnail_extension t).

(** A token function, or a namer, that reads the option set as a mapping:
    equal key/value pairs give equal results. *)
Definition respects_equiv {A} (f : dict -> A) : Prop :=
  forall o1 o2, dict_equiv o1 o2 -> f o1 = f o2.

Definition namer_respects_equiv {File Storage} (f : NamerFn File Storage) : Prop :=
  forall a source_filename extension prepared,
    respects_equiv (fun o => f a source_filename extension o prepared).

(** Two option arguments of the same kind with the same key/value pairs. *)
Definition options_equiv (x1 x2 : OptionsArg) : Prop :=
  match x1, x2 with
  | ArgNone, ArgNone => True
  | ArgDict d1, ArgDict d2 => dict_equiv d1 d2
  | ArgThumbnailOptions o1, ArgThumbnailOptions o2 => dict_equiv o1 o2
  | _, _ => False
  end.

(** The calls made while naming a thumbnail. *)
Definition is_naming_event (ev : Event) : bool :=
  match ev with
  | EvImportString _ | EvNamer => true
  | _ => false
  end.

(** The calls made by the generation pipeline: the engine, the transparency
    test and the naming. *)
Definition is_pipeline_event (ev : Event) : bool :=
  match ev with
  | EvAliasesGet _ _ => false
  | _ => true
  end.

(** ** [generate_all_aliases] *)

Section AllAliases.
Variables File Storage Image ThumbnailFile : Type.
Variable env : Collaborators File Storage Image ThumbnailFile.

(** [aliases.all(fieldfile, include_global=...)]: [None] or a mapping from
    alias names to option mappings, in its iteration order.  This call is
    made before any thumbnailer exists and is not entered in the log. *)
Variable aliases_all : PyObj File Storage -> bool -> option (list (string * OptionsArg)).

(** One turn of the loop: tag the options with their alias, then
    [thumbnailer.get_thumbnail(options)]. *)
Definition generate_alias (t : Thumbnailer File Storage) (item : string * OptionsArg)
  : M ThumbnailFile :=
  options <- lift (options_setitem "ALIAS" (VStr (fst item)) (snd item)) ;;
  get_thumbnail env t options true None false.

(** [for key, options in all_options.items(): ...]; the thumbnails are
    dropped. *)
Fixpoint generate_each (t : Thumbnailer File Storage) (items : list (string * OptionsArg))
  : M unit :=
  match items with
  | [] => ret tt
  | item :: rest =>
      _ <- generate_alias t item ;;
      generate_each t rest
  end.

Definition generate_all_aliases (fieldfile : PyObj File Storage) (include_global : bool)
  : M unit :=
  match aliases_all fieldfile include_global with
  | None | Some [] => ret tt
  | Some all_options =>
      thumbnailer <- lift (get_thumbnailer env fieldfile None) ;;
      generate_each thumbnailer all_options
  end.

End AllAliases.

Arguments generate_alias {File Storage Image ThumbnailFile} env t item.
Arguments generate_each {File Storage Image ThumbnailFile} env t items.
Arguments generate_all_aliases {File Storage Image ThumbnailFile} env aliases_all
  fieldfile include_global.

(** Aliases for the concrete configuration: three project-wide aliases, the
    second with a size that fails the check. *)
Module DemoAliases.

Definition field : PyObj string unit :=
  {| kind := KThumbnailer Demo.photo; easy_thumbnails_thumbnailer := None |}.

Definition bare_file : PyObj string unit :=
  {| kind := KFileLike "rgb"; easy_thumbnails_thumbnailer := None |}.

Definition small : string * OptionsArg := ("small", ArgDict Demo.size_100).
Definition broken : string * OptionsArg := ("broken", ArgDict Demo.size_zero).
Definition large : string * OptionsArg :=
  ("large", ArgDict [("size", VSeq [VInt 800; VInt 600])]).

Definition all (fieldfile : PyObj string unit) (include_global : bool)
  : option (list (string * OptionsArg)) :=
  if include_global then Some [small; broken; large] else Some [].

Definition all_good (fieldfile : PyObj string unit) (include_global : bool)
  : option (list (string * OptionsArg)) :=
  Some [small; large].

(** A normalised option set that lacks the ['quality'] key. *)
Definition no_quality : dict := [("size", VSeq [VInt 100; VInt 100])].

(** A source given by an absolute name. *)
Definition absolute_photo : Thumbnailer string unit :=
  Thumbnailer_init Demo.env (Some "rgb") "/srv/media/photo.png" None None true true.

(** The source ['photo.png'] under a thumbnailer that preserves the
    extensions in the list [['png']]. *)
Definition preserving_photo : Thumbnailer string unit :=
  {| attrs :=
       {| file := None;
          name := "photo.png";
          source_storage := None;
          thumbnail_storage := None;
          remote_source := false;
          alias_target := None;
          generate := true;
          source_generators := None;
          thumbnail_processors := None;
          thumbnail_basedir := "";
          thumbnail_subdir := "";
          thumbnail_prefix := "";
          thumbnail_quality := VInt 85;
          thumbnail_extension := "jpg";
          thumbnail_preserve_extensions := PreserveList ["png"];
          thumbnail_transparency_extension := "gif";
          thumbnail_check_cache_miss := false |};
     thumbnail_namer := NamerCallable Demo.default_namer |}.

(** The concrete configuration with a token function that reads no option
    and an alias registry that holds normalised option sets without a
    size. *)
Definition lenient_env : Collaborators string unit Demo.DemoImage Demo.DemoThumbnail :=
  {| settings := Demo.demo_settings;
     default_options := [("quality", VInt 85); ("subsampling", VInt 2)];
     prepared_options := fun _ => Ok ["thumb"];
     aliases_get := fun _ _ => ArgThumbnailOptions [("crop", VBool true)];
     generate_source_image := Demo.decode;
     process_image := fun img _ _ => Ok img;
     is_transparent := Demo.has_alpha;
     save_pil_image := fun img filename quality subsampling =>
       Ok (Demo.mkThumbnail filename quality subsampling (Demo.pixels img));
     import_string := Demo.import_namer;
     str_mod := Demo.fill_template;
     float_of_str := Demo.parse_float;
     unicode_lower := fun s => s |}.

(** A namer that reads the option set in its iteration order: it names
    the thumbnail after the first key, as [next(iter(thumbnail_options))]
    does. *)
Definition first_key_namer : NamerFn string unit :=
  fun _ source_filename thumbnail_extension o _ =>
    match o with
    | (k, _) :: _ => Ok (k ++ "." ++ thumbnail_extension)
    | [] => Err (ExcFormat "StopIteration" "" [])
    end.

(** The thumbnailer [Demo.photo] with that namer. *)
Definition order_reader : Thumbnailer string unit :=
  {| attrs := attrs Demo.photo; thumbnail_namer := NamerCallable first_key_namer |}.

(** A size whose first dimension is too large for [float]. *)
Definition huge_size : dict := [("size", VSeq [VInt (2 ^ 1024); VInt (-5)])].

End DemoAliases.

(** ** Properties *)

(** *** Dictionaries *)

Lemma dict_get_set_same (k : string) (v : PyVal) (d : dict) :
  dict_get k (dict_set k v d) = Some v.
Proof.
  induction d as [|[k' v'] rest IH]; simpl.
  - now rewrite String.eqb_refl.
  - destruct (String.eqb k k') eqn:E; simpl; rewrite E; auto.
Qed.

Lemma dict_get_set_other (k k0 : string) (v : PyVal) (d : dict) :
  k <> k0 -> dict_get k (dict_set k0 v d) = dict_get k d.
Proof.
  intros Hne. induction d as [|[k' v'] rest IH]; simpl.
  - destruct (String.eqb k k0) eqn:E; auto.
    apply String.eqb_eq in E. contradiction.
  - destruct (String.eqb k0 k') eqn:E0; simpl.
    + apply String.eqb_eq in E0. subst k'.
      apply String.eqb_neq in Hne. now rewrite Hne.
    + now rewrite IH.
Qed.

Lemma dict_get_set (k k0 : string) (v : PyVal) (d : dict) :
  dict_get k (dict_set k0 v d) = if String.eqb k k0 then Some v else dict_get k d.
Proof.
  destruct (String.eqb k k0) eqn:E.
  - apply String.eqb_eq in E. subst. apply dict_get_set_same.
  - apply String.eqb_neq in E. now apply dict_get_set_other.
Qed.

Lemma dict_get_not_in (k : string) (d : dict) :
  ~ In k (map fst d) -> dict_get k d = None.
Proof.
  induction d as [|[k' v'] rest IH]; simpl; auto.
  intros H. destruct (String.eqb k k') eqn:E.
  - apply String.eqb_eq in E. subst. tauto.
  - apply IH. tauto.
Qed.

(** Lookup after [update]: the keyword arguments win over the base. *)
Lemma dict_get_update (k : string) (other base : dict) :
  NoDup (map fst other) ->
  dict_get k (dict_update base other) =
    match dict_get k other with
    | Some v => Some v
    | None => dict_get k base
    end.
Proof.
  unfold dict_update. revert base.
  induction other as [|[k1 v1] rest IH]; intros base Hnd; simpl; auto.
  inversion Hnd as [|? ? Hnotin Hnd']; subst.
  rewrite IH by assumption. rewrite dict_get_set.
  destruct (String.eqb k k1) eqn:E.
  - apply String.eqb_eq in E. subst k1.
    now rewrite (dict_get_not_in k rest Hnotin).
  - reflexivity.
Qed.

(** Lookup after the defaults are filled in: present keys are kept. *)
Lemma dict_get_setdefaults (k : string) (defaults raw : dict) :
  dict_get k (fold_left (fun acc kv => dict_setdefault (fst kv) (snd kv) acc) defaults raw) =
    match dict_get k raw with
    | Some v => Some v
    | None => dict_get k defaults
    end.
Proof.
  revert raw. induction defaults as [|[k1 v1] rest IH]; intros raw; simpl.
  - now destruct (dict_get k raw).
  - rewrite IH. unfold dict_setdefault, dict_contains. simpl.
    destruct (dict_get k1 raw) eqn:E1.
    + destruct (dict_get k raw) eqn:E; auto.
      destruct (String.eqb k k1) eqn:Ek; auto.
      apply String.eqb_eq in Ek. subst. congruence.
    + rewrite dict_get_set.
      destruct (String.eqb k k1) eqn:Ek.
      * apply String.eqb_eq in Ek. subst. now rewrite E1.
      * now destruct (dict_get k raw).
Qed.

Lemma ThumbnailOptions_new_get (k : string) (defaults : dict) (arg : option dict) (kwargs : dict) :
  NoDup (map fst kwargs) ->
  dict_get k (ThumbnailOptions_new defaults arg kwargs) =
    match dict_get k kwargs with
    | Some v => Some v
    | None =>
        match dict_get k (match arg with Some d => d | None => [] end) with
        | Some v => Some v
        | None => dict_get k defaults
        end
    end.
Proof.
  intros Hnd. unfold ThumbnailOptions_new.
  rewrite dict_get_setdefaults, dict_get_update by assumption.
  now destruct (dict_get k kwargs).
Qed.

Lemma dict_equiv_set (k : string) (v : PyVal) (d1 d2 : dict) :
  dict_equiv d1 d2 -> dict_equiv (dict_set k v d1) (dict_set k v d2).
Proof.
  intros H k'. rewrite !dict_get_set. now rewrite (H k').
Qed.

Lemma dict_equiv_contains (k : string) (d1 d2 : dict) :
  dict_equiv d1 d2 -> dict_contains k d1 = dict_contains k d2.
Proof.
  intros H. unfold dict_contains. now rewrite (H k).
Qed.

Lemma ThumbnailOptions_new_equiv (defaults d1 d2 : dict) :
  dict_equiv d1 d2 ->
  dict_equiv (ThumbnailOptions_new defaults (Some d1) [])
             (ThumbnailOptions_new defaults (Some d2) []).
Proof.
  intros H k. rewrite !ThumbnailOptions_new_get by constructor.
  simpl. now rewrite (H k).
Qed.

(** *** The call log *)

Lemma bind_lift_ok {A B} (a : A) (k : A -> M B) : bind (lift (Ok a)) k = k a.
Proof. unfold bind, lift. now destruct (k a). Qed.

Lemma bind_lift_err {A B} (e : Exn) (k : A -> M B) : bind (lift (Err e)) k = ([], Err e).
Proof. reflexivity. Qed.

Lemma bind_call_ok {A B} (ev : Event) (a : A) (k : A -> M B) :
  bind (call ev (Ok a)) k = (ev :: trace (k a), outcome (k a)).
Proof. unfold bind, call, trace, outcome. now destruct (k a). Qed.

Lemma bind_call_err {A B} (ev : Event) (e : Exn) (k : A -> M B) :
  bind (call ev (Err e)) k = ([ev], Err e).
Proof. reflexivity. Qed.

Lemma trace_bind_ok {A B} (m : M A) (a : A) (k : A -> M B) :
  outcome m = Ok a -> trace (bind m k) = (trace m ++ trace (k a))%list.
Proof.
  destruct m as [l r]. unfold outcome, trace, bind. simpl. intros ->.
  now destruct (k a).
Qed.

Lemma outcome_bind_ok {A B} (m : M A) (a : A) (k : A -> M B) :
  outcome m = Ok a -> outcome (bind m k) = outcome (k a).
Proof.
  destruct m as [l r]. unfold outcome, bind. simpl. intros ->.
  now destruct (k a).
Qed.

Lemma bind_err {A B} (m : M A) (e : Exn) (k : A -> M B) :
  outcome m = Err e -> bind m k = (trace m, Err e).
Proof.
  destruct m as [l r]. unfold outcome, trace, bind. simpl. now intros ->.
Qed.

Lemma M_eta {A} (m : M A) : m = (trace m, outcome m).
Proof. now destruct m. Qed.

(** *** Comparisons on the rationals *)

Lemma Qltb_lt (a b : Q) : Qltb a b = true <-> a < b.
Proof.
  unfold Qltb. rewrite negb_true_iff. split.
  - intros H. apply Qnot_le_lt. intros Hle. apply Qle_bool_iff in Hle. congruence.
  - intros H. destruct (Qle_bool b a) eqn:E; [|reflexivity].
    apply Qle_bool_iff in E. now apply Qlt_not_le in H.
Qed.

Lemma py_max_Qmax (a b : Q) : py_max a b = Qmax a b.
Proof.
  unfold py_max, Qmax, GenericMinMax.gmax.
  destruct (Qcompare a b) eqn:C; destruct (Qltb a b) eqn:E; try reflexivity.
  - apply -> Qltb_lt in E. apply -> Qlt_alt in E. congruence.
  - apply <- Qlt_alt in C. apply <- Qltb_lt in C. congruence.
  - apply -> Qltb_lt in E. apply -> Qlt_alt in E. congruence.
Qed.

Lemma py_min_Qmin (a b : Q) : py_min a b = Qmin a b.
Proof.
  unfold py_min, Qmin, GenericMinMax.gmin.
  destruct (Qcompare a b) eqn:C; destruct (Qltb b a) eqn:E; try reflexivity.
  - apply -> Qltb_lt in E. apply -> Qgt_alt in E. congruence.
  - apply -> Qltb_lt in E. apply -> Qgt_alt in E. congruence.
  - apply <- Qgt_alt in C. apply <- Qltb_lt in C. congruence.
Qed.

Lemma fold_max_ge (ds : list Q) (a : Q) : a <= fold_left Qmax ds a.
Proof.
  revert a. induction ds as [|d rest IH]; intros a; simpl.
  - apply Qle_refl.
  - eapply Qle_trans; [apply Q.le_max_l|apply IH].
Qed.

Lemma fold_max_le (ds : list Q) (a c : Q) :
  fold_left Qmax ds a <= c <-> a <= c /\ Forall (fun d => d <= c) ds.
Proof.
  revert a. induction ds as [|d rest IH]; intros a; simpl.
  - split; [intros H; split; [assumption|constructor]|tauto].
  - rewrite IH, Q.max_lub_iff. split.
    + intros [[Ha Hd] Hr]. split; [assumption|now constructor].
    + intros [Ha Hr]. inversion Hr; subst. tauto.
Qed.

Lemma fold_min_lt (ds : list Q) (a c : Q) :
  fold_left Qmin ds a < c <-> a < c \/ Exists (fun d => d < c) ds.
Proof.
  revert a. induction ds as [|d rest IH]; intros a; simpl.
  - split; [tauto|]. intros [H|H]; [assumption|inversion H].
  - rewrite IH, Q.min_lt_iff. split.
    + intros [[Ha|Hd]|Hr]; [now left|right; now left|right; now right].
    + intros [Ha|Hr]; [tauto|]. inversion Hr; subst; tauto.
Qed.

(** The verdict of the check read on the signs of the dimensions. *)
Lemma invalid_iff_signs (ds : list Q) :
  dims_max ds == 0 \/ dims_min ds < 0 <->
  Forall (fun d => d <= 0) ds \/ Exists (fun d => d < 0) ds.
Proof.
  unfold dims_max, dims_min. rewrite fold_min_lt. split.
  - intros [Hmax|[H0|Hex]].
    + left. apply (fold_max_le ds 0 0). rewrite Hmax. apply Qle_refl.
    + discriminate.
    + now right.
  - intros [Hall|Hex].
    + left. apply Qle_antisym; [|apply fold_max_ge].
      apply fold_max_le. split; [apply Qle_refl|assumption].
    + right. now right.
Qed.

Section Properties.
Variables File Storage Image ThumbnailFile : Type.
Variable env : Collaborators File Storage Image ThumbnailFile.

Implicit Types (t : Thumbnailer File Storage) (x : OptionsArg) (o d kwargs : dict).

(** *** Normalisation *)

Lemma get_options_normalized t o kwargs :
  get_options env t (ArgThumbnailOptions o) kwargs = Ok o.
Proof. reflexivity. Qed.

Lemma get_thumbnail_is_generate_thumbnail t x (save : bool) (gen : option bool) (silent : bool) :
  get_thumbnail env t x save gen silent = generate_thumbnail env t x silent.
Proof.
  unfold get_thumbnail.
  destruct (get_options env t x []) as [o|e] eqn:E.
  - rewrite bind_lift_ok. unfold generate_thumbnail.
    rewrite get_options_normalized, E. reflexivity.
  - unfold generate_thumbnail. rewrite E. reflexivity.
Qed.

(** The result of [get_options] key by key.  For a plain mapping [d] of
    caller options, [get_options] returns an
    option set in which every key other than ['quality'] has the caller's
    value when the caller gave one (keyword arguments first, then [d]) and the
    default otherwise.  When [d] has a ['quality'] key the result is the
    constructor's result as it is, nothing is written into it, and its quality
    is the caller's; the thumbnailer's configured quality is written only when
    [d] has no ['quality'] key. *)
Theorem get_options_caller_wins t d kwargs :
  NoDup (map fst kwargs) ->
  exists opts,
    get_options env t (ArgDict d) kwargs = Ok opts
    /\ (forall k, k <> "quality" ->
        dict_get k opts =
          match dict_get k kwargs with
          | Some v => Some v
          | None =>
              match dict_get k d with
              | Some v => Some v
              | None => dict_get k (default_options env)
              end
          end)
    /\ (dict_contains "quality" d = true ->
        opts = ThumbnailOptions_new (default_options env) (Some d) kwargs
        /\ dict_get "quality" opts =
             match dict_get "quality" kwargs with
             | Some v => Some v
             | None => dict_get "quality" d
             end)
    /\ (dict_contains "quality" d = false ->
        opts = dict_set "quality" (thumbnail_quality t)
                 (ThumbnailOptions_new (default_options env) (Some d) kwargs)
        /\ dict_get "quality" opts = Some (thumbnail_quality t)).
Proof.
  intros Hnd. unfold get_options. simpl.
  destruct (dict_contains "quality" d) eqn:Hq; simpl.
  - eexists; split; [reflexivity|]. split; [|split].
    + intros k _. now apply ThumbnailOptions_new_get.
    + intros _. split; [reflexivity|].
      rewrite ThumbnailOptions_new_get by assumption.
      unfold dict_contains in Hq.
      destruct (dict_get "quality" kwargs); [reflexivity|].
      now destruct (dict_get "quality" d).
    + discriminate.
  - eexists; split; [reflexivity|]. split; [|split].
    + intros k Hk. rewrite dict_get_set_other by assumption.
      now apply ThumbnailOptions_new_get.
    + discriminate.
    + intros _. split; [reflexivity|]. apply dict_get_set_same.
Qed.

(** C9.  An option set that is already normalised (a [ThumbnailOptions]
    instance) is returned as it is, whatever the thumbnailer's quality;
    normalising a normalised result changes nothing; and [get_thumbnail],
    which normalises before [generate_thumbnail] normalises again, runs
    [generate_thumbnail] on the options as the caller gave them. *)
Theorem get_options_idempotent t x o kwargs kwargs' (save : bool) (gen : option bool)
    (silent : bool) :
  get_options env t (ArgThumbnailOptions o) kwargs = Ok o
  /\ rbind (get_options env t x kwargs)
       (fun o' => get_options env t (ArgThumbnailOptions o') kwargs')
     = get_options env t x kwargs
  /\ get_thumbnail env t x save gen silent = generate_thumbnail env t x silent.
Proof.
  split; [reflexivity|]. split.
  - now destruct (get_options env t x kwargs).
  - apply get_thumbnail_is_generate_thumbnail.
Qed.

(** *** Naming *)

Lemma trace_bind_Forall {A B} (P : Event -> Prop) (m : M A) (k : A -> M B) :
  Forall P (trace m) -> (forall a, Forall P (trace (k a))) -> Forall P (trace (bind m k)).
Proof.
  destruct m as [l [a|e]]; unfold trace, bind; simpl; intros Hm Hk; auto.
  specialize (Hk a). destruct (k a) as [l' r]. simpl in *.
  apply Forall_app. now split.
Qed.

Lemma resolve_namer_trace t :
  Forall (fun ev => is_naming_event ev = true) (trace (resolve_namer env t)).
Proof.
  unfold resolve_namer. destruct (thumbnail_namer t); simpl; repeat constructor.
Qed.

(** The log of [get_thumbnail_name] holds calls to [import_string] and to the
    namer only. *)
Lemma get_thumbnail_name_trace t x (transparent : bool) :
  Forall (fun ev => is_naming_event ev = true)
    (trace (get_thumbnail_name env t x transparent)).
Proof.
  unfold get_thumbnail_name.
  apply trace_bind_Forall; [constructor|intros o].
  destruct (os_path_split (name t)) as [path source_filename].
  apply trace_bind_Forall; [constructor|intros prepared].
  apply trace_bind_Forall; [constructor|intros basedir].
  apply trace_bind_Forall; [constructor|intros subdir].
  apply trace_bind_Forall; [apply resolve_namer_trace|intros namer_func].
  apply trace_bind_Forall; [repeat constructor|intros filename].
  constructor.
Qed.

Lemma outcome_bind_inv {A B} (m : M A) (k : A -> M B) (b : B) :
  outcome (bind m k) = Ok b -> exists a, outcome m = Ok a /\ outcome (k a) = Ok b.
Proof.
  destruct m as [l [a|e]]; unfold outcome, bind; simpl.
  - intros H. exists a. split; [reflexivity|]. now destruct (k a).
  - discriminate.
Qed.

Lemma get_thumbnail_name_normalizes t x (transparent : bool) :
  get_thumbnail_name env t x transparent =
    bind (lift (get_options env t x []))
      (fun o => get_thumbnail_name env t (ArgThumbnailOptions o) transparent).
Proof.
  unfold get_thumbnail_name at 1.
  destruct (get_options env t x []) as [o|e]; [|reflexivity].
  rewrite !bind_lift_ok. unfold get_thumbnail_name.
  rewrite get_options_normalized, bind_lift_ok. reflexivity.
Qed.

(** C4.  [get_thumbnail_name] returns a path exactly when the options
    normalise, the tokens are prepared, both templates are filled and the
    namer returns a filename; the path is then
    [os.path.join(basedir, source directory, subdir, prefix + filename)],
    with both templates filled with the tokens joined by ['_'] and the namer
    called with the thumbnailer, the source filename, the chosen extension,
    the option set and the tokens. *)
Theorem get_thumbnail_name_composition t x (transparent : bool) (p : string) :
  outcome (get_thumbnail_name env t x transparent) = Ok p <->
  exists opts prepared basedir subdir namer_func filename,
    get_options env t x [] = Ok opts
    /\ prepared_options env opts = Ok prepared
    /\ str_mod env (thumbnail_basedir t) (join_tokens prepared) = Ok basedir
    /\ str_mod env (thumbnail_subdir t) (join_tokens prepared) = Ok subdir
    /\ outcome (resolve_namer env t) = Ok namer_func
    /\ namer_func (attrs t) (snd (os_path_split (name t)))
         (choose_extension env t (snd (os_path_split (name t))) transparent)
         opts prepared = Ok filename
    /\ p = os_path_join basedir
             [fst (os_path_split (name t)); subdir; thumbnail_prefix t ++ filename].
Proof.
  unfold get_thumbnail_name.
  destruct (os_path_split (name t)) as [path source_filename]. simpl fst. simpl snd.
  split.
  - intros H.
    apply outcome_bind_inv in H. destruct H as (opts & Ho & H).
    apply outcome_bind_inv in H. destruct H as (prepared & Hp & H).
    apply outcome_bind_inv in H. destruct H as (basedir & Hb & H).
    apply outcome_bind_inv in H. destruct H as (subdir & Hs & H).
    apply outcome_bind_inv in H. destruct H as (namer_func & Hn & H).
    apply outcome_bind_inv in H. destruct H as (filename & Hf & H).
    exists opts, prepared, basedir, subdir, namer_func, filename.
    unfold outcome, lift, call, ret in *. simpl in *.
    inversion H. repeat split; auto.
  - intros (opts & prepared & basedir & subdir & namer_func & filename
            & Ho & Hp & Hb & Hs & Hn & Hf & ->).
    rewrite Ho, bind_lift_ok, Hp, bind_lift_ok, Hb, bind_lift_ok, Hs, bind_lift_ok.
    rewrite (outcome_bind_ok _ namer_func) by assumption.
    rewrite Hf. reflexivity.
Qed.

Lemma get_thumbnail_name_equiv t o1 o2 (transparent : bool) :
  respects_equiv (prepared_options env) ->
  (forall f, outcome (resolve_namer env t) = Ok f -> namer_respects_equiv f) ->
  dict_equiv o1 o2 ->
  get_thumbnail_name env t (ArgThumbnailOptions o1) transparent =
  get_thumbnail_name env t (ArgThumbnailOptions o2) transparent.
Proof.
  intros Hprep Hnamer Heq. unfold get_thumbnail_name.
  rewrite !get_options_normalized, !bind_lift_ok.
  destruct (os_path_split (name t)) as [path source_filename].
  rewrite (Hprep o1 o2 Heq).
  destruct (prepared_options env o2) as [prepared|e]; [|reflexivity].
  rewrite !bind_lift_ok.
  destruct (str_mod env (thumbnail_basedir t) (join_tokens prepared)) as [basedir|e];
    [|reflexivity].
  rewrite !bind_lift_ok.
  destruct (str_mod env (thumbnail_subdir t) (join_tokens prepared)) as [subdir|e];
    [|reflexivity].
  rewrite !bind_lift_ok.
  destruct (resolve_namer env t) as [l [f|e]] eqn:En; [|reflexivity].
  unfold bind at 1 3.
  specialize (Hnamer f eq_refl).
  now rewrite (Hnamer (attrs t) source_filename _ prepared o1 o2 Heq).
Qed.

Lemma get_options_equiv t x1 x2 :
  options_equiv x1 x2 ->
  match get_options env t x1 [], get_options env t x2 [] with
  | Ok o1, Ok o2 => dict_equiv o1 o2
  | Err e1, Err e2 => e1 = e2
  | _, _ => False
  end.
Proof.
  destruct x1 as [|d1|o1], x2 as [|d2|o2]; simpl; try tauto.
  intros H. unfold get_options. simpl.
  rewrite (dict_equiv_contains "quality" d1 d2 H).
  destruct (dict_contains "quality" d2); simpl.
  - now apply ThumbnailOptions_new_equiv.
  - apply dict_equiv_set. now apply ThumbnailOptions_new_equiv.
Qed.

(** C1, as the code has it.  With a token function and a namer that read
    the option set as a mapping, two option sets with the same key/value
    pairs, in whatever insertion order, give the same result of
    [get_thumbnail_name] for the same thumbnailer and transparency flag: the
    same path or the same failure, and the same calls.  The only calls made
    are [import_string] and the namer: no storage, engine or alias registry
    is reached. *)
Theorem get_thumbnail_name_deterministic t x1 x2 (transparent : bool) :
  respects_equiv (prepared_options env) ->
  (forall f, outcome (resolve_namer env t) = Ok f -> namer_respects_equiv f) ->
  options_equiv x1 x2 ->
  get_thumbnail_name env t x1 transparent = get_thumbnail_name env t x2 transparent
  /\ Forall (fun ev => is_naming_event ev = true)
       (trace (get_thumbnail_name env t x1 transparent)).
Proof.
  intros Hprep Hnamer Heq. split; [|apply get_thumbnail_name_trace].
  rewrite (get_thumbnail_name_normalizes t x1), (get_thumbnail_name_normalizes t x2).
  pose proof (get_options_equiv t x1 x2 Heq) as H.
  destruct (get_options env t x1 []) as [o1|e1], (get_options env t x2 []) as [o2|e2];
    try contradiction.
  - rewrite !bind_lift_ok. now apply get_thumbnail_name_equiv.
  - now subst.
Qed.

(** *** The generation pipeline *)

Lemma generate_thumbnail_checked t x (silent : bool) opts sz :
  get_options env t x [] = Ok opts ->
  dict_get "size" opts = Some sz ->
  size_sanity_check env sz = Ok tt ->
  generate_thumbnail env t x silent = after_size_check env t opts silent.
Proof.
  intros Ho Hs Hc. unfold generate_thumbnail, dict_getitem.
  rewrite Ho, bind_lift_ok, Hs, bind_lift_ok, Hc, bind_lift_ok. reflexivity.
Qed.

Lemma generate_thumbnail_rejected t x (silent : bool) opts sz e :
  get_options env t x [] = Ok opts ->
  dict_get "size" opts = Some sz ->
  size_sanity_check env sz = Err e ->
  generate_thumbnail env t x silent = ([], Err e).
Proof.
  intros Ho Hs Hc. unfold generate_thumbnail, dict_getitem.
  rewrite Ho, bind_lift_ok, Hs, bind_lift_ok, Hc. reflexivity.
Qed.

(** No collaborator is called unless the options normalise, hold a size and
    the size passes the check. *)
Lemma generate_thumbnail_call_needs_check t x (silent : bool) :
  trace (generate_thumbnail env t x silent) <> [] ->
  exists opts sz,
    get_options env t x [] = Ok opts
    /\ dict_get "size" opts = Some sz
    /\ size_sanity_check env sz = Ok tt.
Proof.
  unfold generate_thumbnail, dict_getitem.
  destruct (get_options env t x []) as [opts|e] eqn:Ho; [|intros H; now contradiction H].
  rewrite bind_lift_ok.
  destruct (dict_get "size" opts) as [sz|] eqn:Hs; [|intros H; now contradiction H].
  rewrite bind_lift_ok.
  destruct (size_sanity_check env sz) as [[]|e] eqn:Hc; [|intros H; now contradiction H].
  intros _. exists opts, sz. repeat split; auto.
Qed.

Lemma after_size_check_trace t opts (silent : bool) :
  Forall (fun ev => is_pipeline_event ev = true) (trace (after_size_check env t opts silent)).
Proof.
  unfold after_size_check.
  apply trace_bind_Forall; [repeat constructor|intros [image|]]; [|constructor].
  apply trace_bind_Forall; [repeat constructor|intros thumbnail_image].
  apply trace_bind_Forall; [repeat constructor|intros transparent].
  apply trace_bind_Forall.
  - eapply Forall_impl; [|apply get_thumbnail_name_trace].
    intros [] H; simpl in *; congruence.
  - intros filename.
    apply trace_bind_Forall; [constructor|intros quality].
    apply trace_bind_Forall; [constructor|intros subsampling].
    repeat constructor.
Qed.

Lemma generate_thumbnail_trace t x (silent : bool) :
  Forall (fun ev => is_pipeline_event ev = true) (trace (generate_thumbnail env t x silent)).
Proof.
  destruct (trace (generate_thumbnail env t x silent)) eqn:E; [constructor|].
  rewrite <- E.
  destruct (generate_thumbnail_call_needs_check t x silent) as (opts & sz & Ho & Hs & Hc).
  - rewrite E. discriminate.
  - rewrite (generate_thumbnail_checked t x silent opts sz Ho Hs Hc).
    apply after_size_check_trace.
Qed.

(** C6.  When the size check has passed and source generation returns
    [None], [generate_thumbnail] fails with [InvalidImageFormatError], the
    message being formatted with the thumbnailer's name, after the single
    call to source generation: no processor, namer or encoder is called.
    Conversely source generation is called only after the options normalised
    and their size passed the check. *)
Theorem generate_thumbnail_no_image t x (silent : bool) opts sz :
  get_options env t x [] = Ok opts ->
  dict_get "size" opts = Some sz ->
  size_sanity_check env sz = Ok tt ->
  generate_source_image env (file t) opts (source_generators t) silent = Ok None ->
  generate_thumbnail env t x silent =
    ([EvGenerateSourceImage silent],
     Err (ExcFormat "InvalidImageFormatError" invalid_image_msg [VStr (name t)]))
  /\ (forall x' silent' s,
        In (EvGenerateSourceImage s) (trace (generate_thumbnail env t x' silent')) ->
        exists opts' sz',
          get_options env t x' [] = Ok opts'
          /\ dict_get "size" opts' = Some sz'
          /\ size_sanity_check env sz' = Ok tt).
Proof.
  intros Ho Hs Hc Hg. split.
  - rewrite (generate_thumbnail_checked t x silent opts sz Ho Hs Hc).
    unfold after_size_check. rewrite Hg. reflexivity.
  - intros x' silent' s Hin. apply (generate_thumbnail_call_needs_check t x' silent').
    intros E. rewrite E in Hin. inversion Hin.
Qed.

(** C7.  [get_thumbnail] is [generate_thumbnail] on the same options: its
    [save] and [generate] arguments change nothing.  When every step
    succeeds the artifact is what [save_pil_image] returns for the processed
    image, under the name computed with the processed image's transparency
    flag and with the quality and subsampling of the normalised options; the
    calls are source generation, processing, the transparency test, the
    naming and the encoding, in that order, and whatever the outcome every
    call is one of these: no storage or cache is read or written. *)
Theorem get_thumbnail_fresh t x (save save' : bool) (gen gen' : option bool) (silent : bool) :
  get_thumbnail env t x save gen silent = generate_thumbnail env t x silent
  /\ get_thumbnail env t x save gen silent = get_thumbnail env t x save' gen' silent
  /\ Forall (fun ev => is_pipeline_event ev = true)
       (trace (get_thumbnail env t x save gen silent))
  /\ (forall opts sz image thumbnail_image filename quality subsampling,
        get_options env t x [] = Ok opts ->
        dict_get "size" opts = Some sz ->
        size_sanity_check env sz = Ok tt ->
        generate_source_image env (file t) opts (source_generators t) silent
          = Ok (Some image) ->
        process_image env image opts (thumbnail_processors t) = Ok thumbnail_image ->
        outcome (get_thumbnail_name env t (ArgThumbnailOptions opts)
                   (is_transparent env thumbnail_image)) = Ok filename ->
        dict_get "quality" opts = Some quality ->
        dict_get "subsampling" opts = Some subsampling ->
        get_thumbnail env t x save gen silent =
          (([EvGenerateSourceImage silent; EvProcessImage; EvIsTransparent]
            ++ trace (get_thumbnail_name env t (ArgThumbnailOptions opts)
                        (is_transparent env thumbnail_image))
            ++ [EvSavePilImage filename])%list,
           save_pil_image env thumbnail_image filename quality subsampling)).
Proof.
  split; [apply get_thumbnail_is_generate_thumbnail|].
  split; [now rewrite !get_thumbnail_is_generate_thumbnail|].
  split; [rewrite get_thumbnail_is_generate_thumbnail; apply generate_thumbnail_trace|].
  intros opts sz image thumbnail_image filename quality subsampling
    Ho Hs Hc Hg Hp Hn Hq Hss.
  rewrite get_thumbnail_is_generate_thumbnail.
  rewrite (generate_thumbnail_checked t x silent opts sz Ho Hs Hc).
  unfold after_size_check, dict_getitem.
  rewrite Hg, bind_call_ok, Hp, bind_call_ok, bind_call_ok.
  rewrite (M_eta (get_thumbnail_name env t (ArgThumbnailOptions opts)
                    (is_transparent env thumbnail_image))).
  rewrite Hn, Hq, Hss. unfold bind, lift, call, trace, outcome. simpl.
  reflexivity.
Qed.

(** C5.  [t[alias]] first resolves the alias against the thumbnailer's alias
    target.  When that yields [None] or an empty option set it raises
    [KeyError(alias)] and calls nothing else; otherwise it stores the alias
    under ['ALIAS'] in the resolved options and continues as
    [get_thumbnail] on them with [silent_template_exception=True]. *)
Theorem getitem_alias_lookup t (alias : string) :
  let options := aliases_get env alias (alias_target t) in
  (options_truthy options = false ->
     Thumbnailer_getitem env t alias =
       ([EvAliasesGet alias (alias_target t)], Err (ExcValue "KeyError" (VStr alias))))
  /\ (options_truthy options = true ->
      exists tagged,
        options_setitem "ALIAS" (VStr alias) options = Ok tagged
        /\ options_contains "ALIAS" tagged = Ok true
        /\ Thumbnailer_getitem env t alias =
             (EvAliasesGet alias (alias_target t)
                :: trace (get_thumbnail env t tagged true None true),
              outcome (get_thumbnail env t tagged true None true))).
Proof.
  intros options. unfold Thumbnailer_getitem. rewrite bind_call_ok. fold options.
  split; intros Ht; rewrite Ht; cbn [negb].
  - reflexivity.
  - destruct options as [|d|o] eqn:E; simpl in Ht; try discriminate.
    + exists (ArgDict (dict_set "ALIAS" (VStr alias) d)).
      split; [reflexivity|]. split.
      * simpl. unfold dict_contains. now rewrite dict_get_set_same.
      * unfold options_setitem. now rewrite bind_lift_ok.
    + exists (ArgThumbnailOptions (dict_set "ALIAS" (VStr alias) o)).
      split; [reflexivity|]. split.
      * simpl. unfold dict_contains. now rewrite dict_get_set_same.
      * unfold options_setitem. now rewrite bind_lift_ok.
Qed.

(** *** The size check *)

Lemma after_size_check_first_call t opts (silent : bool) :
  exists rest,
    trace (after_size_check env t opts silent) = EvGenerateSourceImage silent :: rest.
Proof.
  unfold after_size_check.
  destruct (generate_source_image env (file t) opts (source_generators t) silent)
    as [image|e].
  - rewrite bind_call_ok. eexists. reflexivity.
  - rewrite bind_call_err. eexists. reflexivity.
Qed.

Lemma size_loop_folds (dims : list PyVal) (mn mx : Q) :
  forallb (fun v => negb (overflows v)) dims = true ->
  size_loop env dims (mn, mx) =
    Ok (fold_left Qmin (coerced_dims (float_of_str env) dims) mn,
        fold_left Qmax (coerced_dims (float_of_str env) dims) mx).
Proof.
  revert mn mx. induction dims as [|dim rest IH]; intros mn mx Hno; simpl.
  - reflexivity.
  - simpl in Hno. apply andb_true_iff in Hno. destruct Hno as [Hd Hrest].
    destruct dim as [|b|z|q|s|items]; simpl in *.
    + now apply IH.
    + rewrite IH by assumption. now rewrite py_min_Qmin, py_max_Qmax.
    + destruct (Z.abs z <? float_overflow_bound)%Z; [|discriminate]. simpl.
      rewrite IH by assumption. now rewrite py_min_Qmin, py_max_Qmax.
    + rewrite IH by assumption. now rewrite py_min_Qmin, py_max_Qmax.
    + destruct (float_of_str env s); simpl.
      * rewrite IH by assumption. now rewrite py_min_Qmin, py_max_Qmax.
      * now apply IH.
    + now apply IH.
Qed.

Lemma size_sanity_check_pair (w h : PyVal) :
  overflows w = false -> overflows h = false ->
  size_sanity_check env (VSeq [w; h]) =
    if Qeq_bool (dims_max (coerced_dims (float_of_str env) [w; h])) 0
       || Qltb (dims_min (coerced_dims (float_of_str env) [w; h])) 0
    then Err (ExcFormat "EasyThumbnailsError" invalid_size_msg [w; h])
    else Ok tt.
Proof.
  intros Hw Hh. unfold size_sanity_check. simpl py_iter. unfold rbind at 1.
  rewrite size_loop_folds by (simpl; now rewrite Hw, Hh).
  reflexivity.
Qed.

(** C2, as the code has it.  For a size of two dimensions on which [float]
    does not overflow, [generate_thumbnail] raises [EasyThumbnailsError] with
    the invalid-size message formatted with the two dimensions, and calls no
    collaborator, exactly when the maximum across the coerced dimensions is 0
    or the minimum is below 0 (a dimension that cannot be coerced is skipped),
    that is when no dimension is positive or one is negative; otherwise the
    first thing it does is call source generation.  So (0,0) and (-10,50) are
    rejected, (0,50) and (50,None) are accepted. *)
Theorem generate_thumbnail_size_check t x (silent : bool) opts (w h : PyVal) :
  get_options env t x [] = Ok opts ->
  dict_get "size" opts = Some (VSeq [w; h]) ->
  overflows w = false ->
  overflows h = false ->
  let ds := coerced_dims (float_of_str env) [w; h] in
  let invalid := dims_max ds == 0 \/ dims_min ds < 0 in
  (invalid <->
     generate_thumbnail env t x silent =
       ([], Err (ExcFormat "EasyThumbnailsError" invalid_size_msg [w; h])))
  /\ (~ invalid <->
      exists rest,
        trace (generate_thumbnail env t x silent) = EvGenerateSourceImage silent :: rest)
  /\ (invalid <-> Forall (fun q => q <= 0) ds \/ Exists (fun q => q < 0) ds)
  /\ size_sanity_check env (VSeq [VInt 0; VInt 0])
       = Err (ExcFormat "EasyThumbnailsError" invalid_size_msg [VInt 0; VInt 0])
  /\ size_sanity_check env (VSeq [VInt (-10); VInt 50])
       = Err (ExcFormat "EasyThumbnailsError" invalid_size_msg [VInt (-10); VInt 50])
  /\ size_sanity_check env (VSeq [VInt 0; VInt 50]) = Ok tt
  /\ size_sanity_check env (VSeq [VInt 50; VNone]) = Ok tt.
Proof.
  intros Ho Hs Hw Hh ds invalid.
  pose proof (size_sanity_check_pair w h Hw Hh) as Hc. fold ds in Hc.
  assert (Hdec : invalid <->
            Qeq_bool (dims_max ds) 0 || Qltb (dims_min ds) 0 = true).
  { unfold invalid. rewrite orb_true_iff, Qeq_bool_iff, Qltb_lt. tauto. }
  split; [|split; [|split]].
  - split.
    + intros Hi. apply Hdec in Hi. rewrite Hi in Hc.
      now apply (generate_thumbnail_rejected t x silent opts (VSeq [w; h])).
    + intros Hg. apply Hdec.
      destruct (Qeq_bool (dims_max ds) 0 || Qltb (dims_min ds) 0); [reflexivity|].
      rewrite (generate_thumbnail_checked t x silent opts _ Ho Hs Hc) in Hg.
      destruct (after_size_check_first_call t opts silent) as [rest Hr].
      apply (f_equal fst) in Hg. unfold trace in Hr. rewrite Hr in Hg. discriminate.
  - split.
    + intros Hn.
      destruct (Qeq_bool (dims_max ds) 0 || Qltb (dims_min ds) 0) eqn:E.
      * exfalso. apply Hn. now apply Hdec.
      * rewrite (generate_thumbnail_checked t x silent opts _ Ho Hs Hc).
        apply after_size_check_first_call.
    + intros [rest Hr] Hi. apply Hdec in Hi. rewrite Hi in Hc.
      rewrite (generate_thumbnail_rejected t x silent opts _ _ Ho Hs Hc) in Hr.
      discriminate.
  - unfold invalid. apply invalid_iff_signs.
  - repeat split; vm_compute; reflexivity.
Qed.

(** *** The extension *)

Lemma existsb_eqb_In (s : string) (l : list string) :
  existsb (String.eqb s) l = true <-> In s l.
Proof.
  rewrite existsb_exists. split.
  - intros (y & Hin & Heq). apply String.eqb_eq in Heq. now subst.
  - intros Hin. exists s. split; [assumption|apply String.eqb_refl].
Qed.

(** C3, as the code has it.  The extension handed to the namer is, in this
    order of priority: the lower-cased source extension when the
    preserve-extensions setting is [True], or is a list or a tuple that
    contains it (a set is not looked into); otherwise the transparency
    extension when the transparent flag is set; otherwise the default
    extension; and ['jpg'] in place of an empty choice.  For ['photo.png']
    with the setting at [True] it is ['png']. *)
Theorem extension_priority t (transparent : bool) :
  let source_filename := snd (os_path_split (name t)) in
  let source_extension :=
    str_lower env (drop_first (snd (os_path_splitext source_filename))) in
  let preserved :=
    match thumbnail_preserve_extensions t with
    | PreserveBool true => True
    | PreserveList exts | PreserveTuple exts => In source_extension exts
    | _ => False
    end in
  let chosen := choose_extension env t source_filename transparent in
  (preserved -> chosen = or_jpg source_extension)
  /\ (~ preserved -> transparent = true ->
      chosen = or_jpg (thumbnail_transparency_extension t))
  /\ (~ preserved -> transparent = false -> chosen = or_jpg (thumbnail_extension t))
  /\ or_jpg "" = "jpg"
  /\ (forall e, e <> "" -> or_jpg e = e)
  /\ (name t = "photo.png" -> thumbnail_preserve_extensions t = PreserveBool true ->
      chosen = "png")
  /\ (forall exts, thumbnail_preserve_extensions t = PreserveSet exts -> ~ preserved).
Proof.
  intros source_filename source_extension preserved chosen.
  assert (Hp : preserved <->
            preserves_extension (thumbnail_preserve_extensions t) source_extension = true).
  { unfold preserved, preserves_extension.
    destruct (thumbnail_preserve_extensions t) as [|[]|exts|exts|exts];
      try (split; [tauto|discriminate]); try tauto;
      symmetry; apply existsb_eqb_In. }
  unfold chosen, choose_extension. fold source_extension.
  repeat split.
  - intros H. apply Hp in H. now rewrite H.
  - intros H ->.
    destruct (preserves_extension (thumbnail_preserve_extensions t) source_extension) eqn:E;
      [exfalso; apply H; now apply Hp|reflexivity].
  - intros H ->.
    destruct (preserves_extension (thumbnail_preserve_extensions t) source_extension) eqn:E;
      [exfalso; apply H; now apply Hp|reflexivity].
  - intros e He. destruct e; [contradiction|reflexivity].
  - intros Hn Hpe. unfold source_extension, source_filename.
    rewrite Hpe, Hn. reflexivity.
  - intros exts He. unfold preserved. now rewrite He.
Qed.

(** *** [get_thumbnailer] *)

(** C10, as the code has it.  An object with an
    [easy_thumbnails_thumbnailer] attribute yields the value of that
    attribute; otherwise a thumbnailer is returned as it is; a non-empty
    string yields a thumbnailer named by it, without a file and not remote,
    and the empty string raises [ValueError]; a file-like object needs a
    non-empty relative name, raises [ValueError] without one, and yields a
    thumbnailer on that file which is remote. *)
Theorem get_thumbnailer_cases (obj : PyObj File Storage) (relative_name : option string) :
  (forall th, easy_thumbnails_thumbnailer obj = Some th ->
     get_thumbnailer env obj relative_name = Ok th)
  /\ (easy_thumbnails_thumbnailer obj = None ->
      (forall th, kind obj = KThumbnailer th -> get_thumbnailer env obj relative_name = Ok th)
      /\ (forall s, kind obj = KStr s -> s <> "" ->
          exists th,
            get_thumbnailer env obj relative_name = Ok th
            /\ name th = s /\ remote_source th = false /\ file th = None)
      /\ (kind obj = KStr "" ->
          get_thumbnailer env obj relative_name
            = Err (ExcFormat "ValueError" relative_name_msg []))
      /\ (forall f, kind obj = KFileLike f ->
          relative_name = None \/ relative_name = Some "" ->
          get_thumbnailer env obj relative_name
            = Err (ExcFormat "ValueError" relative_name_msg []))
      /\ (forall f rel, kind obj = KFileLike f -> relative_name = Some rel -> rel <> "" ->
          exists th,
            get_thumbnailer env obj relative_name = Ok th
            /\ name th = rel /\ remote_source th = true /\ file th = Some f)).
Proof.
  unfold get_thumbnailer. split.
  - intros th ->. reflexivity.
  - intros ->. repeat split.
    + intros th ->. reflexivity.
    + intros s -> Hs. destruct s; [contradiction|].
      eexists. split; [reflexivity|]. repeat split.
    + intros ->. reflexivity.
    + intros f -> [->| ->]; reflexivity.
    + intros f rel -> -> Hrel. destruct rel; [contradiction|].
      eexists. split; [reflexivity|]. repeat split.
Qed.

End Properties.

(** ** The statements on the concrete configuration *)

Example os_path_split_ex :
  os_path_split "a/b/photo.png" = ("a/b", "photo.png")
  /\ os_path_split "photo.png" = ("", "photo.png")
  /\ os_path_split "/photo.png" = ("/", "photo.png")
  /\ os_path_split "a//b" = ("a", "b")
  /\ os_path_split "a/b/" = ("a/b", "").
Proof. repeat split; reflexivity. Qed.

Example os_path_splitext_ex :
  os_path_splitext "photo.png" = ("photo", ".png")
  /\ os_path_splitext ".bashrc" = (".bashrc", "")
  /\ os_path_splitext "a.tar.gz" = ("a.tar", ".gz")
  /\ os_path_splitext "a." = ("a", ".")
  /\ os_path_splitext "..x" = ("..x", "")
  /\ os_path_splitext "d.e/f" = ("d.e/f", "").
Proof. repeat split; reflexivity. Qed.

Example os_path_join_ex :
  os_path_join "thumbs" ["a/b"; "100x100"; "t_photo.jpg"] = "thumbs/a/b/100x100/t_photo.jpg"
  /\ os_path_join "" [""; ""; "photo.jpg"] = "photo.jpg"
  /\ os_path_join "thumbs" ["/abs"; ""; "x.jpg"] = "/abs/x.jpg".
Proof. repeat split; reflexivity. Qed.

Lemma demo_prepared_options_respects : respects_equiv Demo.tokens_of.
Proof.
  intros o1 o2 H. unfold Demo.tokens_of, dict_getitem.
  rewrite (H "size"), (H "quality").
  assert (Hf : filter (fun k => match dict_get k o1 with
                                | Some v => Demo.truthy v
                                | None => false
                                end) Demo.flag_keys
               = filter (fun k => match dict_get k o2 with
                                  | Some v => Demo.truthy v
                                  | None => false
                                  end) Demo.flag_keys).
  { apply filter_ext. intros k. now rewrite (H k). }
  now rewrite Hf.
Qed.

Lemma demo_default_namer_respects : namer_respects_equiv Demo.default_namer.
Proof. intros a f e p o1 o2 _. reflexivity. Qed.

Lemma demo_alias_namer_respects : namer_respects_equiv Demo.alias_namer.
Proof.
  intros a f e p o1 o2 H. unfold Demo.alias_namer, dict_getitem. now rewrite (H "ALIAS").
Qed.

Lemma demo_sizes_equiv : dict_equiv Demo.size_100 Demo.size_100_reordered.
Proof.
  intros k. unfold Demo.size_100, Demo.size_100_reordered. simpl.
  destruct (String.eqb k "size") eqn:Es, (String.eqb k "crop") eqn:Ec; try reflexivity.
  apply String.eqb_eq in Es, Ec. congruence.
Qed.

Lemma get_thumbnail_name_deterministic_witness :
  get_thumbnail_name Demo.env Demo.photo (ArgDict Demo.size_100) false
  = get_thumbnail_name Demo.env Demo.photo (ArgDict Demo.size_100_reordered) false.
Proof.
  apply (get_thumbnail_name_deterministic _ _ _ _ Demo.env Demo.photo
           (ArgDict Demo.size_100) (ArgDict Demo.size_100_reordered) false).
  - exact demo_prepared_options_respects.
  - intros f Hf. vm_compute in Hf. inversion Hf. exact demo_default_namer_respects.
  - exact demo_sizes_equiv.
Defined.

(** C1: a callable namer that names the thumbnail after the first key of
    the option set it is handed gives two different paths for two orderings
    of the same options. *)
Lemma order_reading_namer_tells_orders_apart :
  options_equiv (ArgDict Demo.size_100) (ArgDict Demo.size_100_reordered)
  /\ outcome (get_thumbnail_name Demo.env DemoAliases.order_reader
                (ArgDict Demo.size_100) false)
     = Ok "thumbs/a/b/100x100_q85_crop/t_size.jpg"
  /\ outcome (get_thumbnail_name Demo.env DemoAliases.order_reader
                (ArgDict Demo.size_100_reordered) false)
     = Ok "thumbs/a/b/100x100_q85_crop/t_crop.jpg".
Proof. split; [exact demo_sizes_equiv|split; reflexivity]. Qed.

(** C8.  [get_options({'crop': True}, quality=10)] on a thumbnailer whose
    quality is 85: the mapping has no ['quality'] key, so the quality the
    caller gave as a keyword argument is overwritten with the
    thumbnailer's. *)
Lemma get_options_keyword_quality_overwritten :
  thumbnail_quality Demo.photo = VInt 85
  /\ get_options Demo.env Demo.photo (ArgDict [("crop", VBool true)]) [("quality", VInt 10)]
     = Ok [("crop", VBool true); ("quality", VInt 85); ("subsampling", VInt 2)]
  /\ dict_get "quality" (ThumbnailOptions_new (default_options Demo.env)
                           (Some [("crop", VBool true)]) [("quality", VInt 10)])
     = Some (VInt 10).
Proof. repeat split. Qed.

Lemma generate_thumbnail_size_check_witness :
  generate_thumbnail Demo.env Demo.photo (ArgDict Demo.size_zero) false
  = ([], Err (ExcFormat "EasyThumbnailsError" invalid_size_msg [VInt 0; VInt 0])).
Proof.
  apply (proj1 (generate_thumbnail_size_check _ _ _ _ Demo.env Demo.photo
                  (ArgDict Demo.size_zero) false
                  [("size", VSeq [VInt 0; VInt 0]); ("quality", VInt 85);
                   ("subsampling", VInt 2)]
                  (VInt 0) (VInt 0) eq_refl eq_refl eq_refl eq_refl)).
  left. reflexivity.
Defined.

(** C2: at size (0,0) the exception raised is an [EasyThumbnailsError], the
    base class of the package's errors, and not an [InvalidSizeError]. *)
Lemma invalid_size_raises_base_error :
  generate_thumbnail Demo.env Demo.photo (ArgDict Demo.size_zero) false
  = ([], Err (ExcFormat "EasyThumbnailsError" invalid_size_msg [VInt 0; VInt 0]))
  /\ exc_class (ExcFormat "EasyThumbnailsError" invalid_size_msg [VInt 0; VInt 0])
     <> "InvalidSizeError".
Proof. split; [vm_compute; reflexivity|discriminate]. Qed.

Lemma extension_priority_witness :
  choose_extension Demo.env Demo.named_photo "photo.png" true = "png".
Proof.
  apply (proj1 (proj2 (extension_priority _ _ _ _ Demo.env Demo.named_photo true))).
  - simpl. tauto.
  - reflexivity.
Defined.

(** C3: with the extensions to preserve given as the set [{'png'}], the
    source ['photo.png'] gets the default extension, where the policy as
    worded keeps ['png']. *)
Lemma preserve_set_not_consulted :
  thumbnail_preserve_extensions Demo.photo_png_set = PreserveSet ["png"]
  /\ choose_extension Demo.env Demo.photo_png_set
       (snd (os_path_split (name Demo.photo_png_set))) false
     = "jpg"
  /\ choose_extension_as_worded Demo.env Demo.photo_png_set
       (snd (os_path_split (name Demo.photo_png_set))) false
     = "png"
  /\ outcome (get_thumbnail_name Demo.env Demo.photo_png_set (ArgDict Demo.size_100) false)
     = Ok "photo.png.100x100_q85_crop.jpg".
Proof. repeat split. Qed.

Lemma get_thumbnail_name_composition_witness :
  exists opts prepared basedir subdir namer_func filename,
    get_options Demo.env Demo.photo (ArgDict Demo.size_100) [] = Ok opts
    /\ Demo.tokens_of opts = Ok prepared
    /\ Demo.fill_template "thumbs" (join_tokens prepared) = Ok basedir
    /\ Demo.fill_template "%(opts)s" (join_tokens prepared) = Ok subdir
    /\ outcome (resolve_namer Demo.env Demo.photo) = Ok namer_func
    /\ namer_func (attrs Demo.photo) "photo.png" "jpg" opts prepared = Ok filename
    /\ "thumbs/a/b/100x100_q85_crop/t_photo.png.100x100_q85_crop.jpg"
       = os_path_join basedir ["a/b"; subdir; "t_" ++ filename].
Proof.
  exact (proj1 (get_thumbnail_name_composition _ _ _ _ Demo.env Demo.photo
                  (ArgDict Demo.size_100) false
                  "thumbs/a/b/100x100_q85_crop/t_photo.png.100x100_q85_crop.jpg")
           eq_refl).
Defined.

Lemma getitem_alias_lookup_witness :
  Thumbnailer_getitem Demo.env Demo.photo "blank"
  = ([EvAliasesGet "blank" None], Err (ExcValue "KeyError" (VStr "blank"))).
Proof.
  apply (proj1 (getitem_alias_lookup _ _ _ _ Demo.env Demo.photo "blank")).
  reflexivity.
Defined.

Lemma generate_thumbnail_no_image_witness :
  generate_thumbnail Demo.env Demo.named_photo (ArgDict Demo.size_100) true
  = ([EvGenerateSourceImage true],
     Err (ExcFormat "InvalidImageFormatError" invalid_image_msg [VStr "photo.png"])).
Proof.
  apply (proj1 (generate_thumbnail_no_image _ _ _ _ Demo.env Demo.named_photo
                  (ArgDict Demo.size_100) true
                  [("size", VSeq [VInt 100; VInt 100]); ("crop", VBool true);
                   ("quality", VInt 85); ("subsampling", VInt 2)]
                  (VSeq [VInt 100; VInt 100])
                  eq_refl eq_refl eq_refl eq_refl)).
Defined.

Lemma get_thumbnail_fresh_witness :
  get_thumbnail Demo.env Demo.photo (ArgDict Demo.size_100) true None false
  = ([EvGenerateSourceImage false; EvProcessImage; EvIsTransparent;
      EvImportString "easy_thumbnails.namers.default"; EvNamer;
      EvSavePilImage "thumbs/a/b/100x100_q85_crop/t_photo.png.100x100_q85_crop.jpg"],
     Ok (Demo.mkThumbnail "thumbs/a/b/100x100_q85_crop/t_photo.png.100x100_q85_crop.jpg"
           (VInt 85) (VInt 2) "rgb")).
Proof.
  exact (proj2 (proj2 (proj2
           (get_thumbnail_fresh _ _ _ _ Demo.env Demo.photo (ArgDict Demo.size_100)
              true true None None false)))
           [("size", VSeq [VInt 100; VInt 100]); ("crop", VBool true);
            ("quality", VInt 85); ("subsampling", VInt 2)]
           (VSeq [VInt 100; VInt 100])
           (Demo.mkImage false "rgb") (Demo.mkImage false "rgb")
           "thumbs/a/b/100x100_q85_crop/t_photo.png.100x100_q85_crop.jpg"
           (VInt 85) (VInt 2)
           eq_refl eq_refl eq_refl eq_refl eq_refl eq_refl eq_refl eq_refl).
Defined.

Lemma get_options_caller_wins_witness :
  exists opts,
    get_options Demo.env Demo.photo (ArgDict [("quality", VInt 50)]) [] = Ok opts
    /\ dict_get "quality" opts = Some (VInt 50).
Proof.
  destruct (get_options_caller_wins _ _ _ _ Demo.env Demo.photo [("quality", VInt 50)] []
              (NoDup_nil _)) as (opts & Ho & _ & Hq & _).
  exists opts. split; [exact Ho|]. exact (proj2 (Hq eq_refl)).
Defined.

Lemma get_thumbnailer_cases_witness :
  exists th,
    get_thumbnailer Demo.env {| kind := KStr "photo.png"; easy_thumbnails_thumbnailer := None |} None
      = Ok th
    /\ name th = "photo.png" /\ remote_source th = false /\ file th = None.
Proof.
  refine (proj1 (proj2 (proj2 (get_thumbnailer_cases _ _ _ _ Demo.env
            {| kind := KStr "photo.png"; easy_thumbnails_thumbnailer := None |} None)
            eq_refl)) "photo.png" eq_refl _).
  discriminate.
Defined.

(** C10: the empty string is a string argument for which no thumbnailer is
    built, and an object with the attribute gets the attribute's value back,
    not itself. *)
Lemma get_thumbnailer_empty_string :
  get_thumbnailer Demo.env Demo.empty_string (Some "photo.png")
    = Err (ExcFormat "ValueError" relative_name_msg [])
  /\ get_thumbnailer Demo.env Demo.wrapper None = Ok Demo.named_photo
  /\ kind Demo.wrapper <> KThumbnailer Demo.named_photo.
Proof. repeat split. discriminate. Qed.

(** ** Further properties of [files.py] *)

(** *** Keys of a normalised option set *)

Lemma dict_contains_set (k k0 : string) (v : PyVal) (d : dict) :
  dict_contains k (dict_set k0 v d) = String.eqb k k0 || dict_contains k d.
Proof.
  unfold dict_contains. rewrite dict_get_set. now destruct (String.eqb k k0).
Qed.

Lemma dict_contains_update (k : string) (other base : dict) :
  dict_contains k (dict_update base other) = dict_contains k base || dict_contains k other.
Proof.
  unfold dict_update. revert base.
  induction other as [|[k1 v1] rest IH]; intros base; simpl.
  - now rewrite orb_false_r.
  - rewrite IH, dict_contains_set. unfold dict_contains at 4. simpl.
    destruct (String.eqb k k1); simpl.
    + now rewrite !orb_true_r.
    + reflexivity.
Qed.

Lemma dict_contains_setdefaults (k : string) (defaults raw : dict) :
  dict_contains k (fold_left (fun acc kv => dict_setdefault (fst kv) (snd kv) acc) defaults raw)
  = dict_contains k raw || dict_contains k defaults.
Proof.
  unfold dict_contains. rewrite dict_get_setdefaults.
  now destruct (dict_get k raw).
Qed.

Lemma size_loop_error_class {File Storage Image ThumbnailFile}
    (env : Collaborators File Storage Image ThumbnailFile)
    (dims : list PyVal) (acc : Q * Q) (e : Exn) :
  size_loop env dims acc = Err e ->
  e = ExcFormat "OverflowError" "int too large to convert to float" [].
Proof.
  revert acc. induction dims as [|dim rest IH]; intros acc; simpl; [discriminate|].
  destruct dim as [|b|z|q|s|items]; simpl; try apply IH.
  - destruct (Z.abs z <? float_overflow_bound)%Z; simpl; [apply IH|].
    intros H. now inversion H.
  - destruct (float_of_str env s); simpl; apply IH.
Qed.

Lemma size_loop_overflow {File Storage Image ThumbnailFile}
    (env : Collaborators File Storage Image ThumbnailFile)
    (dims : list PyVal) (acc : Q * Q) :
  Exists (fun v => overflows v = true) dims ->
  size_loop env dims acc = Err (ExcFormat "OverflowError" "int too large to convert to float" []).
Proof.
  intros Hex. revert acc. induction Hex as [dim rest Hd|dim rest Hex IH]; intros acc; simpl.
  - destruct dim as [|b|z|q|s|items]; simpl in Hd; try discriminate.
    simpl. apply negb_true_iff in Hd. now rewrite Hd.
  - destruct (py_float (float_of_str env) dim) as [f|e] eqn:E; [apply IH|].
    destruct (caught_by_size_loop e) eqn:Ec; [apply IH|].
    destruct dim as [|b|z|q|s|items]; simpl in E; try (inversion E; subst; discriminate).
    + destruct (Z.abs z <? float_overflow_bound)%Z; inversion E. reflexivity.
    + destruct (float_of_str env s); inversion E; subst; discriminate.
Qed.

Lemma fold_max_pos (ds : list Q) (a c : Q) :
  c < fold_left Qmax ds a <-> c < a \/ Exists (fun q => c < q) ds.
Proof.
  revert a. induction ds as [|d rest IH]; intros a; simpl.
  - split; [tauto|]. intros [H|H]; [assumption|inversion H].
  - rewrite IH, Q.max_lt_iff. split.
    + intros [[Ha|Hd]|Hr]; [now left|right; now left|right; now right].
    + intros [Ha|Hr]; [tauto|]. inversion Hr; subst; tauto.
Qed.

Lemma fold_min_ge (ds : list Q) (a c : Q) :
  c <= fold_left Qmin ds a <-> c <= a /\ Forall (fun q => c <= q) ds.
Proof.
  revert a. induction ds as [|d rest IH]; intros a; simpl.
  - split; [intros H; split; [assumption|constructor]|tauto].
  - rewrite IH, Q.min_glb_iff. split.
    + intros [[Ha Hd] Hr]. split; [assumption|now constructor].
    + intros [Ha Hr]. inversion Hr; subst. tauto.
Qed.

(** *** Strings and paths *)

Lemma string_app_assoc (a b c : string) : (a ++ b) ++ c = a ++ (b ++ c).
Proof. induction a as [|x a IH]; simpl; [reflexivity|now rewrite IH]. Qed.

Lemma contains_char_app (c : ascii) (a b : string) :
  contains_char c (a ++ b) = contains_char c a || contains_char c b.
Proof.
  induction a as [|x a IH]; simpl; [reflexivity|].
  now rewrite IH, orb_assoc.
Qed.

Lemma rpartition_after_app (c : ascii) (p : string) :
  fst (rpartition_after c p) ++ snd (rpartition_after c p) = p.
Proof.
  induction p as [|a rest IH]; simpl; [reflexivity|].
  destruct (contains_char c rest).
  - destruct (rpartition_after c rest) as [h t]. simpl in *. now rewrite IH.
  - destruct (Ascii.eqb a c); reflexivity.
Qed.

Lemma rpartition_after_tail (c : ascii) (p : string) :
  contains_char c (snd (rpartition_after c p)) = false.
Proof.
  induction p as [|a rest IH]; simpl; [reflexivity|].
  destruct (contains_char c rest) eqn:E.
  - destruct (rpartition_after c rest) as [h t]. exact IH.
  - destruct (Ascii.eqb a c) eqn:Ea; simpl; [exact E|].
    now rewrite Ascii.eqb_sym, Ea, E.
Qed.

Lemma rpartition_after_tail_other (c d : ascii) (p : string) :
  contains_char d p = false ->
  contains_char d (snd (rpartition_after c p)) = false.
Proof.
  intros H. rewrite <- (rpartition_after_app c p), contains_char_app in H.
  now apply orb_false_iff in H.
Qed.

Lemma rstrip_empty_all (c : ascii) (s : string) :
  rstrip c s = EmptyString -> all_char c s = true.
Proof.
  induction s as [|a rest IH]; simpl; [reflexivity|].
  destruct (rstrip c rest) eqn:E; [|discriminate].
  destruct (Ascii.eqb a c); [|discriminate].
  intros _. now apply IH.
Qed.

Lemma rstrip_keeps_first (c a : ascii) (rest : string) :
  all_char c (String a rest) = false ->
  starts_with a (rstrip c (String a rest)) = true.
Proof.
  intros H. simpl.
  destruct (rstrip c rest) eqn:E.
  - destruct (Ascii.eqb a c) eqn:Ea.
    + simpl in H. rewrite Ea, (rstrip_empty_all c rest E) in H. discriminate.
    + simpl. apply Ascii.eqb_refl.
  - simpl. apply Ascii.eqb_refl.
Qed.

(** The directory of an absolute name is absolute. *)
Lemma os_path_split_absolute (p : string) :
  starts_with sep p = true -> starts_with sep (fst (os_path_split p)) = true.
Proof.
  destruct p as [|a rest]; [discriminate|]. simpl starts_with. intros Ha.
  apply Ascii.eqb_eq in Ha. subst a.
  unfold os_path_split.
  assert (Hh : exists h, fst (rpartition_after sep (String sep rest)) = String sep h).
  { simpl. destruct (contains_char sep rest).
    - destruct (rpartition_after sep rest) as [h t]. now exists h.
    - now exists EmptyString. }
  destruct Hh as [h Hh].
  destruct (rpartition_after sep (String sep rest)) as [head tail]. simpl in Hh. subst head.
  destruct (negb (is_empty (String sep h)) && negb (all_char sep (String sep h))) eqn:E.
  - simpl fst. apply rstrip_keeps_first.
    apply andb_true_iff in E. destruct E as [_ E]. now apply negb_true_iff in E.
  - reflexivity.
Qed.

(** The last component is always a suffix of the joined path. *)
Lemma os_path_join_suffix (a : string) (l : list string) (b : string) :
  exists pre, os_path_join a (l ++ [b]) = pre ++ b.
Proof.
  unfold os_path_join. rewrite fold_left_app. simpl.
  set (path := fold_left _ l a).
  destruct (starts_with sep b).
  - now exists EmptyString.
  - destruct (is_empty path || ends_with sep path).
    + now exists path.
    + exists (path ++ String sep EmptyString). now rewrite string_app_assoc.
Qed.

Lemma ascii_lower_dot (a : ascii) : Ascii.eqb extsep (ascii_lower a) = Ascii.eqb extsep a.
Proof. destruct a as [[] [] [] [] [] [] [] []]; reflexivity. Qed.

Lemma ascii_lower_sep (a : ascii) : Ascii.eqb sep (ascii_lower a) = Ascii.eqb sep a.
Proof. destruct a as [[] [] [] [] [] [] [] []]; reflexivity. Qed.

Lemma contains_char_lower_ascii (c : ascii) (s : string) :
  (forall a, Ascii.eqb c (ascii_lower a) = Ascii.eqb c a) ->
  contains_char c (lower_ascii s) = contains_char c s.
Proof.
  intros Hc. induction s as [|a rest IH]; simpl; [reflexivity|].
  now rewrite Hc, IH.
Qed.

(** Lowering a text neither adds nor removes a character that has no case,
    provided the interpreter's lowering of non-ASCII text does not. *)
Lemma str_lower_keeps_char {File Storage Image ThumbnailFile}
    (env : Collaborators File Storage Image ThumbnailFile) (c : ascii) (s : string) :
  (forall a, Ascii.eqb c (ascii_lower a) = Ascii.eqb c a) ->
  (forall s', contains_char c (unicode_lower env s') = contains_char c s') ->
  contains_char c (str_lower env s) = contains_char c s.
Proof.
  intros Hc Hu. unfold str_lower.
  destruct (is_ascii s); [now apply contains_char_lower_ascii|apply Hu].
Qed.

(** The extension read off a filename holds no dot and no separator. *)
Lemma source_extension_clean {File Storage Image ThumbnailFile}
    (env : Collaborators File Storage Image ThumbnailFile) (f : string) :
  (forall s, contains_char extsep (unicode_lower env s) = contains_char extsep s) ->
  (forall s, contains_char sep (unicode_lower env s) = contains_char sep s) ->
  let e := str_lower env (drop_first (snd (os_path_splitext f))) in
  contains_char extsep e = false /\ contains_char sep e = false.
Proof.
  intros Hdot Hsep e. subst e.
  rewrite (str_lower_keeps_char env extsep _ ascii_lower_dot Hdot).
  rewrite (str_lower_keeps_char env sep _ ascii_lower_sep Hsep).
  unfold os_path_splitext.
  pose proof (rpartition_after_tail sep f) as Hbase.
  destruct (rpartition_after sep f) as [dir base]. simpl in Hbase.
  destruct (contains_char extsep base) eqn:Hd; [|now simpl].
  pose proof (rpartition_after_tail extsep base) as Hext.
  pose proof (rpartition_after_tail_other extsep sep base Hbase) as Hext'.
  destruct (rpartition_after extsep base) as [stem_dot ext]. simpl in Hext, Hext'.
  destruct (all_char extsep (drop_last stem_dot)); [now simpl|].
  simpl snd. simpl drop_first. now split.
Qed.

Section MoreProperties.
Variables File Storage Image ThumbnailFile : Type.
Variable env : Collaborators File Storage Image ThumbnailFile.

Implicit Types (t : Thumbnailer File Storage) (x : OptionsArg) (o d kwargs : dict).

(** X1.  [None] as options is not normalised but rejected: [get_options]
    raises [TypeError] on it whatever the keyword arguments, and so do
    [get_thumbnail_name], [generate_thumbnail] and [get_thumbnail], before
    any collaborator is called. *)
Theorem none_options_raise_TypeError t kwargs (transparent silent save : bool)
    (gen : option bool) :
  exists e,
    exc_class e = "TypeError"
    /\ get_options env t ArgNone kwargs = Err e
    /\ get_thumbnail_name env t ArgNone transparent = ([], Err e)
    /\ generate_thumbnail env t ArgNone silent = ([], Err e)
    /\ get_thumbnail env t ArgNone save gen silent = ([], Err e).
Proof.
  eexists. split; [|split; [reflexivity|]]; [reflexivity|].
  repeat split.
Qed.

(** X2.  Normalising a plain mapping never drops a key of the caller, from
    the mapping or from the keyword arguments, and the result always has a
    ['quality'] key, whatever the defaults. *)
Theorem get_options_keeps_keys t d kwargs opts :
  get_options env t (ArgDict d) kwargs = Ok opts ->
  dict_contains "quality" opts = true
  /\ (forall k, dict_contains k d = true \/ dict_contains k kwargs = true ->
        dict_contains k opts = true).
Proof.
  unfold get_options. simpl.
  assert (Hnew : forall k,
            dict_contains k (ThumbnailOptions_new (default_options env) (Some d) kwargs)
            = (dict_contains k d || dict_contains k kwargs)
              || dict_contains k (default_options env)).
  { intros k. unfold ThumbnailOptions_new.
    now rewrite dict_contains_setdefaults, dict_contains_update. }
  destruct (dict_contains "quality" d) eqn:Hq; simpl; intros H; inversion H; subst; clear H.
  - split.
    + now rewrite Hnew, Hq.
    + intros k Hk. rewrite Hnew. apply orb_true_iff. left.
      apply orb_true_iff. exact Hk.
  - split.
    + rewrite dict_contains_set. reflexivity.
    + intros k Hk. rewrite dict_contains_set, Hnew.
      apply orb_true_iff. right. apply orb_true_iff. left.
      apply orb_true_iff. exact Hk.
Qed.

(** X3.  Options without a ['size'] key make [generate_thumbnail] and
    [get_thumbnail] raise [KeyError('size')] before any collaborator is
    called. *)
Theorem missing_size_raises_KeyError t x (silent save : bool) (gen : option bool) opts :
  get_options env t x [] = Ok opts ->
  dict_get "size" opts = None ->
  generate_thumbnail env t x silent = ([], Err (ExcValue "KeyError" (VStr "size")))
  /\ get_thumbnail env t x save gen silent = ([], Err (ExcValue "KeyError" (VStr "size"))).
Proof.
  intros Ho Hs.
  assert (Hg : generate_thumbnail env t x silent
               = ([], Err (ExcValue "KeyError" (VStr "size")))).
  { unfold generate_thumbnail, dict_getitem. rewrite Ho, bind_lift_ok, Hs. reflexivity. }
  split; [exact Hg|].
  now rewrite get_thumbnail_is_generate_thumbnail.
Qed.

(** X4.  An alias that resolves to a non-empty normalised option set
    without a size makes [t[alias]] raise a [KeyError] too, whose argument
    is ['size'] and not the alias; nothing but the alias lookup is called. *)
Theorem getitem_alias_without_size t (alias : string) o :
  aliases_get env alias (alias_target t) = ArgThumbnailOptions o ->
  o <> [] ->
  dict_get "size" o = None ->
  Thumbnailer_getitem env t alias =
    ([EvAliasesGet alias (alias_target t)], Err (ExcValue "KeyError" (VStr "size"))).
Proof.
  intros Ha Hne Hs. unfold Thumbnailer_getitem. rewrite bind_call_ok, Ha.
  destruct o as [|kv rest]; [contradiction|].
  cbn [options_truthy negb options_setitem]. rewrite bind_lift_ok.
  rewrite get_thumbnail_is_generate_thumbnail.
  unfold generate_thumbnail, dict_getitem.
  rewrite get_options_normalized, bind_lift_ok.
  rewrite dict_get_set_other by discriminate. rewrite Hs. reflexivity.
Qed.

(** *** The size check on sizes of any length *)

Lemma size_sanity_check_seq (dims : list PyVal) :
  forallb (fun v => negb (overflows v)) dims = true ->
  size_sanity_check env (VSeq dims) =
    if Qeq_bool (dims_max (coerced_dims (float_of_str env) dims)) 0
       || Qltb (dims_min (coerced_dims (float_of_str env) dims)) 0
    then Err (format_invalid_size dims)
    else Ok tt.
Proof.
  intros Hno. unfold size_sanity_check. simpl py_iter. unfold rbind at 1.
  rewrite size_loop_folds by assumption. reflexivity.
Qed.

(** X5.  A size of any number of dimensions, none of which overflows
    [float], passes the check exactly when one coerced dimension is
    positive and none is negative. *)
Theorem size_check_accepts_iff (dims : list PyVal) :
  forallb (fun v => negb (overflows v)) dims = true ->
  size_sanity_check env (VSeq dims) = Ok tt <->
  Exists (fun q => 0 < q) (coerced_dims (float_of_str env) dims)
  /\ Forall (fun q => 0 <= q) (coerced_dims (float_of_str env) dims).
Proof.
  intros Hno. rewrite (size_sanity_check_seq dims Hno).
  set (ds := coerced_dims (float_of_str env) dims).
  assert (Hmax : Qeq_bool (dims_max ds) 0 = false <-> Exists (fun q => 0 < q) ds).
  { unfold dims_max. split.
    - intros H.
      destruct (fold_max_pos ds 0 0) as [Hp _].
      destruct Hp as [Hp|Hp]; [|now apply Qlt_irrefl in Hp|assumption].
      apply Qnot_le_lt. intros Hle.
      assert (Heq : fold_left Qmax ds 0 == 0)
        by (apply Qle_antisym; [assumption|apply fold_max_ge]).
      apply Qeq_bool_iff in Heq. congruence.
    - intros Hex. destruct (Qeq_bool (fold_left Qmax ds 0) 0) eqn:E; [|reflexivity].
      apply Qeq_bool_iff in E.
      assert (Hpos : 0 < fold_left Qmax ds 0) by (apply fold_max_pos; now right).
      rewrite E in Hpos. now apply Qlt_irrefl in Hpos. }
  assert (Hmin : Qltb (dims_min ds) 0 = false <-> Forall (fun q => 0 <= q) ds).
  { unfold dims_min. split.
    - intros H. apply (fold_min_ge ds 0 0).
      destruct (Qlt_le_dec (fold_left Qmin ds 0) 0) as [Hlt|Hle]; [|assumption].
      apply Qltb_lt in Hlt. congruence.
    - intros Hall. destruct (Qltb (fold_left Qmin ds 0) 0) eqn:E; [|reflexivity].
      apply Qltb_lt in E.
      assert (Hge : 0 <= fold_left Qmin ds 0)
        by (apply fold_min_ge; split; [apply Qle_refl|assumption]).
      now apply Qlt_not_le in E. }
  split.
  - intros H.
    destruct (Qeq_bool (dims_max ds) 0) eqn:E1; [discriminate|].
    destruct (Qltb (dims_min ds) 0) eqn:E2; [discriminate|].
    split; [now apply Hmax|now apply Hmin].
  - intros [Hex Hall]. apply Hmax in Hex. apply Hmin in Hall.
    now rewrite Hex, Hall.
Qed.

(** X6.  A size with fewer than two dimensions is never reported as an
    invalid size: when it fails the check the exception is the [IndexError]
    of the message formatting (or the [OverflowError] of [float]), and the
    empty size always fails so. *)
Theorem short_size_raises_IndexError (dims : list PyVal) (e : Exn) :
  (List.length dims < 2)%nat ->
  size_sanity_check env (VSeq dims) = Err e ->
  (exc_class e = "IndexError" \/ exc_class e = "OverflowError")
  /\ exists e0, size_sanity_check env (VSeq []) = Err e0 /\ exc_class e0 = "IndexError".
Proof.
  intros Hlen He. split.
  - unfold size_sanity_check in He. simpl py_iter in He. unfold rbind at 1 in He.
    destruct (size_loop env dims (0, 0)) as [[mn mx]|e1] eqn:El.
    + simpl in He.
      destruct (Qeq_bool mx 0 || Qltb mn 0); [|discriminate].
      inversion He; subst. left.
      destruct dims as [|a [|b rest]]; simpl in *; try reflexivity. lia.
    + simpl in He. inversion He; subst.
      right. now rewrite (size_loop_error_class env dims _ _ El).
  - eexists. split; reflexivity.
Qed.

(** X7.  When one dimension is an integer too large for [float], the
    [OverflowError] of the conversion leaves [generate_thumbnail], whatever
    the other dimensions are, and no collaborator is called. *)
Theorem overflowing_size_raises_OverflowError t x (silent : bool) opts (dims : list PyVal) :
  get_options env t x [] = Ok opts ->
  dict_get "size" opts = Some (VSeq dims) ->
  Exists (fun v => overflows v = true) dims ->
  generate_thumbnail env t x silent =
    ([], Err (ExcFormat "OverflowError" "int too large to convert to float" [])).
Proof.
  intros Ho Hs Hex.
  apply (generate_thumbnail_rejected _ _ _ _ env t x silent opts (VSeq dims)); auto.
  unfold size_sanity_check. simpl py_iter. unfold rbind at 1.
  now rewrite (size_loop_overflow env dims (0, 0) Hex).
Qed.

(** *** More on naming *)

Lemma get_thumbnail_name_inv t x (transparent : bool) (p : string) :
  outcome (get_thumbnail_name env t x transparent) = Ok p ->
  exists opts prepared basedir subdir namer_func filename,
    get_options env t x [] = Ok opts
    /\ prepared_options env opts = Ok prepared
    /\ str_mod env (thumbnail_basedir t) (join_tokens prepared) = Ok basedir
    /\ str_mod env (thumbnail_subdir t) (join_tokens prepared) = Ok subdir
    /\ outcome (resolve_namer env t) = Ok namer_func
    /\ namer_func (attrs t) (snd (os_path_split (name t)))
         (choose_extension env t (snd (os_path_split (name t))) transparent)
         opts prepared = Ok filename
    /\ p = os_path_join basedir
             [fst (os_path_split (name t)); subdir; thumbnail_prefix t ++ filename].
Proof.
  unfold get_thumbnail_name.
  destruct (os_path_split (name t)) as [path source_filename]. simpl fst. simpl snd.
  intros H.
  apply outcome_bind_inv in H. destruct H as (opts & Ho & H).
  apply outcome_bind_inv in H. destruct H as (prepared & Hp & H).
  apply outcome_bind_inv in H. destruct H as (basedir & Hb & H).
  apply outcome_bind_inv in H. destruct H as (subdir & Hs & H).
  apply outcome_bind_inv in H. destruct H as (namer_func & Hn & H).
  apply outcome_bind_inv in H. destruct H as (filename & Hf & H).
  exists opts, prepared, basedir, subdir, namer_func, filename.
  unfold outcome, lift, call, ret in *. simpl in *.
  inversion H. repeat split; auto.
Qed.

(** X8.  When the source extension is preserved, or when the transparency
    extension and the default extension come to the same, the name does not
    depend on the transparent flag: the name computed ahead of generation is
    the name generation will use. *)
Theorem name_ignores_transparency t x :
  preserves_extension (thumbnail_preserve_extensions t)
    (str_lower env (drop_first (snd (os_path_splitext (snd (os_path_split (name t)))))))
  = true
  \/ or_jpg (thumbnail_transparency_extension t) = or_jpg (thumbnail_extension t) ->
  get_thumbnail_name env t x true = get_thumbnail_name env t x false.
Proof.
  intros H. unfold get_thumbnail_name.
  destruct (os_path_split (name t)) as [path source_filename]. simpl snd in H.
  assert (Hc : choose_extension env t source_filename true
               = choose_extension env t source_filename false).
  { unfold choose_extension. destruct H as [H|H]; [now rewrite H|].
    now destruct (preserves_extension _ _). }
  now rewrite Hc.
Qed.

(** X9.  For a source with an absolute name the base directory does not
    appear in the thumbnail's path: the path is the source directory joined
    with the filled sub-directory and the prefixed filename. *)
Theorem absolute_source_discards_basedir t x (transparent : bool) (p : string) :
  starts_with sep (name t) = true ->
  outcome (get_thumbnail_name env t x transparent) = Ok p ->
  exists opts prepared subdir namer_func filename,
    get_options env t x [] = Ok opts
    /\ prepared_options env opts = Ok prepared
    /\ str_mod env (thumbnail_subdir t) (join_tokens prepared) = Ok subdir
    /\ outcome (resolve_namer env t) = Ok namer_func
    /\ namer_func (attrs t) (snd (os_path_split (name t)))
         (choose_extension env t (snd (os_path_split (name t))) transparent)
         opts prepared = Ok filename
    /\ p = os_path_join (fst (os_path_split (name t)))
             [subdir; thumbnail_prefix t ++ filename].
Proof.
  intros Habs H.
  apply get_thumbnail_name_inv in H.
  destruct H as (opts & prepared & basedir & subdir & namer_func & filename
                 & Ho & Hp & Hb & Hs & Hn & Hf & ->).
  exists opts, prepared, subdir, namer_func, filename.
  repeat split; auto.
  unfold os_path_join. simpl.
  now rewrite (os_path_split_absolute (name t) Habs).
Qed.

(** X10.  Whatever the templates and the source directory are, a path
    returned by [get_thumbnail_name] ends with the prefix followed by the
    filename the namer returned. *)
Theorem thumbnail_name_ends_with_filename t x (transparent : bool) (p : string) :
  outcome (get_thumbnail_name env t x transparent) = Ok p ->
  exists opts prepared namer_func filename pre,
    get_options env t x [] = Ok opts
    /\ prepared_options env opts = Ok prepared
    /\ outcome (resolve_namer env t) = Ok namer_func
    /\ namer_func (attrs t) (snd (os_path_split (name t)))
         (choose_extension env t (snd (os_path_split (name t))) transparent)
         opts prepared = Ok filename
    /\ p = pre ++ thumbnail_prefix t ++ filename.
Proof.
  intros H.
  apply get_thumbnail_name_inv in H.
  destruct H as (opts & prepared & basedir & subdir & namer_func & filename
                 & Ho & Hp & Hb & Hs & Hn & Hf & ->).
  destruct (os_path_join_suffix basedir [fst (os_path_split (name t)); subdir]
              (thumbnail_prefix t ++ filename)) as [pre Hpre].
  exists opts, prepared, namer_func, filename, pre.
  repeat split; auto.
Qed.

(** X11.  When the source extension is preserved, the extension handed to
    the namer is not empty and holds neither a dot nor a path separator,
    whatever the source name, provided lowering a non-ASCII text leaves the
    dots and separators of the text as they are. *)
Theorem preserved_extension_is_clean t (source_filename : string) (transparent : bool) :
  (forall s, contains_char extsep (unicode_lower env s) = contains_char extsep s) ->
  (forall s, contains_char sep (unicode_lower env s) = contains_char sep s) ->
  preserves_extension (thumbnail_preserve_extensions t)
    (str_lower env (drop_first (snd (os_path_splitext source_filename)))) = true ->
  let e := choose_extension env t source_filename transparent in
  e <> ""
  /\ contains_char extsep e = false
  /\ contains_char sep e = false.
Proof.
  intros Hdot Hsep H e. subst e. unfold choose_extension. rewrite H.
  destruct (source_extension_clean env source_filename Hdot Hsep) as (Hd & Hs).
  unfold or_jpg.
  destruct (str_lower env (drop_first (snd (os_path_splitext source_filename)))) eqn:E.
  - simpl. repeat split. discriminate.
  - simpl is_empty. cbv iota. repeat split; auto. discriminate.
Qed.

(** *** More on the pipeline *)

Lemma outcome_lift {A} (r : result A) : outcome (lift r) = r.
Proof. reflexivity. Qed.

Lemma outcome_call {A} (ev : Event) (r : result A) : outcome (call ev r) = r.
Proof. reflexivity. Qed.

(** X12.  A thumbnail returned by [generate_thumbnail] is what
    [save_pil_image] returned for the processed image under the name
    computed with that image's transparency flag: success means that the
    options normalised, the size passed the check, a source generator
    decoded the source, the processors and the naming succeeded, and the
    options held a quality and a subsampling; the calls are then exactly
    source generation, processing, the transparency test, the naming and the
    encoding. *)
Theorem generate_thumbnail_success t x (silent : bool) (thumbnail : ThumbnailFile) :
  outcome (generate_thumbnail env t x silent) = Ok thumbnail ->
  exists opts sz image thumbnail_image filename quality subsampling,
    get_options env t x [] = Ok opts
    /\ dict_get "size" opts = Some sz
    /\ size_sanity_check env sz = Ok tt
    /\ generate_source_image env (file t) opts (source_generators t) silent
       = Ok (Some image)
    /\ process_image env image opts (thumbnail_processors t) = Ok thumbnail_image
    /\ outcome (get_thumbnail_name env t (ArgThumbnailOptions opts)
                  (is_transparent env thumbnail_image)) = Ok filename
    /\ dict_get "quality" opts = Some quality
    /\ dict_get "subsampling" opts = Some subsampling
    /\ save_pil_image env thumbnail_image filename quality subsampling = Ok thumbnail
    /\ trace (generate_thumbnail env t x silent) =
         ([EvGenerateSourceImage silent; EvProcessImage; EvIsTransparent]
          ++ trace (get_thumbnail_name env t (ArgThumbnailOptions opts)
                      (is_transparent env thumbnail_image))
          ++ [EvSavePilImage filename])%list.
Proof.
  intros H.
  assert (Hne : trace (generate_thumbnail env t x silent) <> []).
  { intros E. unfold generate_thumbnail, dict_getitem in H, E.
    destruct (get_options env t x []) as [opts|e]; [|discriminate].
    rewrite bind_lift_ok in H, E.
    destruct (dict_get "size" opts) as [sz|]; [|discriminate].
    rewrite bind_lift_ok in H, E.
    destruct (size_sanity_check env sz) as [[]|e]; [|discriminate].
    rewrite bind_lift_ok in E.
    destruct (after_size_check_first_call _ _ _ _ env t opts silent) as [rest Hr].
    rewrite Hr in E. discriminate. }
  destruct (generate_thumbnail_call_needs_check _ _ _ _ env t x silent Hne)
    as (opts & sz & Ho & Hs & Hc).
  pose proof (generate_thumbnail_checked _ _ _ _ env t x silent opts sz Ho Hs Hc) as Hgt.
  rewrite Hgt in H. clear Hne. unfold after_size_check in H.
  apply outcome_bind_inv in H. destruct H as (maybe_image & Hg & H).
  rewrite outcome_call in Hg.
  destruct maybe_image as [image|]; [|discriminate].
  apply outcome_bind_inv in H. destruct H as (thumbnail_image & Hp & H).
  rewrite outcome_call in Hp.
  apply outcome_bind_inv in H. destruct H as (transparent & Ht & H).
  rewrite outcome_call in Ht. inversion Ht; subst transparent; clear Ht.
  apply outcome_bind_inv in H. destruct H as (filename & Hn & H).
  apply outcome_bind_inv in H. destruct H as (quality & Hq & H).
  apply outcome_bind_inv in H. destruct H as (subsampling & Hss & H).
  rewrite outcome_lift in Hq, Hss. rewrite outcome_call in H.
  unfold dict_getitem in Hq, Hss.
  destruct (dict_get "quality" opts) as [q|] eqn:Eq; [|discriminate].
  destruct (dict_get "subsampling" opts) as [ss|] eqn:Ess; [|discriminate].
  inversion Hq; inversion Hss; subst.
  exists opts, sz, image, thumbnail_image, filename, quality, subsampling.
  repeat split; auto.
  rewrite Hgt. unfold after_size_check, dict_getitem.
  rewrite Hg, bind_call_ok, Hp, bind_call_ok, bind_call_ok.
  rewrite (M_eta (get_thumbnail_name env t (ArgThumbnailOptions opts)
                    (is_transparent env thumbnail_image))).
  rewrite Hn, Eq, Ess. unfold bind, lift, call, trace, outcome. simpl. reflexivity.
Qed.

(** X13.  The quality is read only after the image has been generated,
    processed and named: with a normalised option set that has no
    ['quality'] key, [generate_thumbnail] does all that work, then raises
    [KeyError('quality')] and never calls the encoder. *)
Theorem missing_quality_fails_late t (silent : bool) opts sz image thumbnail_image
    (filename : string) :
  dict_get "size" opts = Some sz ->
  size_sanity_check env sz = Ok tt ->
  generate_source_image env (file t) opts (source_generators t) silent = Ok (Some image) ->
  process_image env image opts (thumbnail_processors t) = Ok thumbnail_image ->
  outcome (get_thumbnail_name env t (ArgThumbnailOptions opts)
             (is_transparent env thumbnail_image)) = Ok filename ->
  dict_get "quality" opts = None ->
  generate_thumbnail env t (ArgThumbnailOptions opts) silent =
    (([EvGenerateSourceImage silent; EvProcessImage; EvIsTransparent]
      ++ trace (get_thumbnail_name env t (ArgThumbnailOptions opts)
                  (is_transparent env thumbnail_image)))%list,
     Err (ExcValue "KeyError" (VStr "quality"))).
Proof.
  intros Hs Hc Hg Hp Hn Hq.
  rewrite (generate_thumbnail_checked _ _ _ _ env t _ silent opts sz
             (get_options_normalized _ _ _ _ env t opts []) Hs Hc).
  unfold after_size_check, dict_getitem.
  rewrite Hg, bind_call_ok, Hp, bind_call_ok, bind_call_ok.
  rewrite (M_eta (get_thumbnail_name env t (ArgThumbnailOptions opts)
                    (is_transparent env thumbnail_image))).
  rewrite Hn, Hq. unfold bind, lift, call, trace, outcome. simpl.
  now rewrite app_nil_r.
Qed.

(** *** More on [get_thumbnailer] *)

(** X14.  [get_thumbnailer(None, name)] is [get_thumbnailer(name)]: with a
    string as first argument the [relative_name] argument is not read, and
    [None] with a relative name builds the same named thumbnailer; [None]
    without a relative name raises [ValueError]. *)
Theorem get_thumbnailer_none_is_string (s : string) (relative_name relative_name' : option string) :
  get_thumbnailer env {| kind := KNone; easy_thumbnails_thumbnailer := None |} (Some s)
  = get_thumbnailer env {| kind := KStr s; easy_thumbnails_thumbnailer := None |} relative_name
  /\ get_thumbnailer env {| kind := KStr s; easy_thumbnails_thumbnailer := None |} relative_name
     = get_thumbnailer env {| kind := KStr s; easy_thumbnails_thumbnailer := None |} relative_name'
  /\ get_thumbnailer env {| kind := KNone; easy_thumbnails_thumbnailer := None |} None
     = Err (ExcFormat "ValueError" relative_name_msg []).
Proof. repeat split. Qed.

(** X15.  A thumbnailer that [get_thumbnailer] builds (from [None], a
    string or a file-like object) has a non-empty name, no source storage
    and no alias target, and is remote exactly when it holds a file; so its
    alias lookups are made against no target. *)
Theorem built_thumbnailer_invariants (obj : PyObj File Storage) (relative_name : option string)
    (th : Thumbnailer File Storage) :
  easy_thumbnails_thumbnailer obj = None ->
  (forall t', kind obj <> KThumbnailer t') ->
  get_thumbnailer env obj relative_name = Ok th ->
  name th <> ""
  /\ alias_target th = None
  /\ source_storage th = None
  /\ (remote_source th = true <-> exists f, file th = Some f)
  /\ (forall alias, exists rest,
        trace (Thumbnailer_getitem env th alias) = EvAliasesGet alias None :: rest).
Proof.
  intros Hattr Hkind. unfold get_thumbnailer. rewrite Hattr.
  assert (Hbuilt : forall f n r,
            n <> "" ->
            let th' := Thumbnailer_init env f n None None r true in
            (r = true <-> exists f0, f = Some f0) ->
            name th' <> ""
            /\ alias_target th' = None
            /\ source_storage th' = None
            /\ (remote_source th' = true <-> exists f0, file th' = Some f0)
            /\ (forall alias, exists rest,
                  trace (Thumbnailer_getitem env th' alias)
                  = EvAliasesGet alias None :: rest)).
  { intros f n r Hn th' Hr. repeat split; auto; try apply Hr.
    intros alias. unfold Thumbnailer_getitem. rewrite bind_call_ok.
    eexists. reflexivity. }
  destruct (kind obj) as [|s|t'|f] eqn:Ek.
  - destruct relative_name as [[|c rel]|]; try discriminate.
    intros H. inversion H. apply Hbuilt; [discriminate|].
    split; [discriminate|intros [f0 Hf]; discriminate].
  - destruct s as [|c s]; try discriminate.
    intros H. inversion H. apply Hbuilt; [discriminate|].
    split; [discriminate|intros [f0 Hf]; discriminate].
  - exfalso. now apply (Hkind t').
  - destruct relative_name as [[|c rel]|]; try discriminate.
    intros H. inversion H. apply Hbuilt; [discriminate|].
    split; [intros _; now exists f|reflexivity].
Qed.

(** *** [generate_all_aliases] *)

Variable aliases_all : PyObj File Storage -> bool -> option (list (string * OptionsArg)).

Lemma bind_ok {A B} (m : M A) (a : A) (k : A -> M B) :
  outcome m = Ok a -> bind m k = ((trace m ++ trace (k a))%list, outcome (k a)).
Proof.
  intros H. rewrite (M_eta (bind m k)).
  now rewrite (trace_bind_ok m a k H), (outcome_bind_ok m a k H).
Qed.

Lemma generate_each_all_ok t (items : list (string * OptionsArg)) :
  Forall (fun item => exists a, outcome (generate_alias env t item) = Ok a) items ->
  generate_each env t items
  = (flat_map (fun item => trace (generate_alias env t item)) items, Ok tt).
Proof.
  induction 1 as [|item rest [a Ha] Hrest IH]; simpl; [reflexivity|].
  rewrite (bind_ok _ a _ Ha), IH. reflexivity.
Qed.

Lemma generate_each_ok_inv t (items : list (string * OptionsArg)) :
  outcome (generate_each env t items) = Ok tt ->
  Forall (fun item => exists a, outcome (generate_alias env t item) = Ok a) items.
Proof.
  induction items as [|item rest IH]; simpl; intros H; constructor.
  - apply outcome_bind_inv in H. destruct H as (a & Ha & _). now exists a.
  - apply outcome_bind_inv in H. destruct H as (a & _ & H). now apply IH.
Qed.

Lemma generate_each_first_failure t (pre post : list (string * OptionsArg))
    (item : string * OptionsArg) (e : Exn) :
  Forall (fun item => exists a, outcome (generate_alias env t item) = Ok a) pre ->
  outcome (generate_alias env t item) = Err e ->
  generate_each env t (pre ++ item :: post)
  = ((flat_map (fun item => trace (generate_alias env t item)) pre
      ++ trace (generate_alias env t item))%list,
     Err e).
Proof.
  intros Hpre He. induction Hpre as [|first rest [a Ha] Hrest IH]; simpl.
  - now rewrite (bind_err _ e _ He).
  - rewrite (bind_ok _ a _ Ha), IH. unfold trace, outcome. simpl.
    now rewrite app_assoc.
Qed.

(** X16.  [generate_all_aliases] does nothing, and does not even look for
    a thumbnailer, when there is no alias for the file; otherwise it fails
    as [get_thumbnailer(fieldfile)] fails, and with a thumbnailer it
    succeeds exactly when every alias, tagged with its name, gives a
    thumbnail, the calls being those of the aliases one after the other in
    the mapping's order. *)
Theorem generate_all_aliases_outcome (fieldfile : PyObj File Storage) (include_global : bool) :
  (aliases_all fieldfile include_global = None
   \/ aliases_all fieldfile include_global = Some [] ->
   generate_all_aliases env aliases_all fieldfile include_global = ([], Ok tt))
  /\ (forall items e,
        aliases_all fieldfile include_global = Some items -> items <> [] ->
        get_thumbnailer env fieldfile None = Err e ->
        generate_all_aliases env aliases_all fieldfile include_global = ([], Err e))
  /\ (forall items th,
        aliases_all fieldfile include_global = Some items ->
        get_thumbnailer env fieldfile None = Ok th ->
        (outcome (generate_all_aliases env aliases_all fieldfile include_global) = Ok tt
         <-> Forall (fun item => exists a, outcome (generate_alias env th item) = Ok a) items)
        /\ (Forall (fun item => exists a, outcome (generate_alias env th item) = Ok a) items ->
            trace (generate_all_aliases env aliases_all fieldfile include_global)
            = flat_map (fun item => trace (generate_alias env th item)) items)).
Proof.
  unfold generate_all_aliases. split; [|split].
  - intros [-> | ->]; reflexivity.
  - intros items e -> Hne Hth. destruct items; [contradiction|].
    now rewrite Hth.
  - intros items th -> Hth. destruct items as [|item rest].
    + split; [split; [constructor|reflexivity]|reflexivity].
    + rewrite Hth, bind_lift_ok. split; [split|].
      * apply generate_each_ok_inv.
      * intros H. now rewrite (generate_each_all_ok th _ H).
      * intros H. now rewrite (generate_each_all_ok th _ H).
Qed.

(** X17.  [generate_all_aliases] stops at the first alias that fails: the
    aliases before it have been generated, its exception is the outcome and
    the aliases after it are not touched. *)
Theorem generate_all_aliases_stops_at_first_failure (fieldfile : PyObj File Storage)
    (include_global : bool) (th : Thumbnailer File Storage)
    (pre post : list (string * OptionsArg)) (item : string * OptionsArg) (e : Exn) :
  aliases_all fieldfile include_global = Some (pre ++ item :: post)%list ->
  get_thumbnailer env fieldfile None = Ok th ->
  Forall (fun item => exists a, outcome (generate_alias env th item) = Ok a) pre ->
  outcome (generate_alias env th item) = Err e ->
  generate_all_aliases env aliases_all fieldfile include_global
  = ((flat_map (fun item => trace (generate_alias env th item)) pre
      ++ trace (generate_alias env th item))%list,
     Err e).
Proof.
  intros Hall Hth Hpre He. unfold generate_all_aliases. rewrite Hall.
  destruct (pre ++ item :: post)%list as [|first rest] eqn:E.
  - destruct pre; discriminate.
  - rewrite Hth, bind_lift_ok, <- E.
    now apply generate_each_first_failure.
Qed.

End MoreProperties.

(** ** The further properties on the concrete configuration *)

Lemma get_options_keeps_keys_witness :
  dict_contains "quality" [("crop", VBool true); ("quality", VInt 85); ("subsampling", VInt 2)]
  = true
  /\ (forall k, dict_contains k [("crop", VBool true)] = true \/ dict_contains k [] = true ->
        dict_contains k [("crop", VBool true); ("quality", VInt 85); ("subsampling", VInt 2)]
        = true).
Proof.
  exact (get_options_keeps_keys _ _ _ _ Demo.env Demo.photo [("crop", VBool true)] []
           [("crop", VBool true); ("quality", VInt 85); ("subsampling", VInt 2)] eq_refl).
Defined.

Lemma missing_size_raises_KeyError_witness :
  generate_thumbnail Demo.env Demo.photo (ArgThumbnailOptions [("crop", VBool true)]) false
  = ([], Err (ExcValue "KeyError" (VStr "size"))).
Proof.
  exact (proj1 (missing_size_raises_KeyError _ _ _ _ Demo.env Demo.photo
                  (ArgThumbnailOptions [("crop", VBool true)]) false true None
                  [("crop", VBool true)] eq_refl eq_refl)).
Defined.

Lemma getitem_alias_without_size_witness :
  Thumbnailer_getitem DemoAliases.lenient_env Demo.photo "small"
  = ([EvAliasesGet "small" None], Err (ExcValue "KeyError" (VStr "size"))).
Proof.
  apply (getitem_alias_without_size _ _ _ _ DemoAliases.lenient_env Demo.photo "small"
           [("crop", VBool true)] eq_refl).
  - discriminate.
  - reflexivity.
Defined.

Lemma size_check_accepts_iff_witness :
  size_sanity_check Demo.env (VSeq [VInt 0; VInt 50; VNone]) = Ok tt <->
  Exists (fun q => 0 < q) (coerced_dims Demo.parse_float [VInt 0; VInt 50; VNone])
  /\ Forall (fun q => 0 <= q) (coerced_dims Demo.parse_float [VInt 0; VInt 50; VNone]).
Proof.
  exact (size_check_accepts_iff _ _ _ _ Demo.env [VInt 0; VInt 50; VNone] eq_refl).
Defined.

Lemma short_size_raises_IndexError_witness :
  (exc_class (format_invalid_size [VInt 0]) = "IndexError"
   \/ exc_class (format_invalid_size [VInt 0]) = "OverflowError")
  /\ exists e0, size_sanity_check Demo.env (VSeq []) = Err e0 /\ exc_class e0 = "IndexError".
Proof.
  apply (short_size_raises_IndexError _ _ _ _ Demo.env [VInt 0]).
  - simpl. lia.
  - reflexivity.
Defined.

Lemma overflowing_size_raises_OverflowError_witness :
  generate_thumbnail Demo.env Demo.photo (ArgDict DemoAliases.huge_size) false
  = ([], Err (ExcFormat "OverflowError" "int too large to convert to float" [])).
Proof.
  apply (overflowing_size_raises_OverflowError _ _ _ _ Demo.env Demo.photo
           (ArgDict DemoAliases.huge_size) false
           [("size", VSeq [VInt (2 ^ 1024); VInt (-5)]); ("quality", VInt 85);
            ("subsampling", VInt 2)]
           [VInt (2 ^ 1024); VInt (-5)] eq_refl eq_refl).
  apply Exists_cons_hd. vm_compute. reflexivity.
Defined.

Lemma name_ignores_transparency_witness :
  get_thumbnail_name Demo.env DemoAliases.preserving_photo (ArgDict Demo.size_100) true
  = get_thumbnail_name Demo.env DemoAliases.preserving_photo (ArgDict Demo.size_100) false.
Proof.
  apply (name_ignores_transparency _ _ _ _ Demo.env DemoAliases.preserving_photo).
  left. reflexivity.
Defined.

Lemma absolute_source_discards_basedir_witness :
  exists opts prepared subdir namer_func filename,
    get_options Demo.env DemoAliases.absolute_photo (ArgDict Demo.size_100) [] = Ok opts
    /\ Demo.tokens_of opts = Ok prepared
    /\ Demo.fill_template "%(opts)s" (join_tokens prepared) = Ok subdir
    /\ outcome (resolve_namer Demo.env DemoAliases.absolute_photo) = Ok namer_func
    /\ namer_func (attrs DemoAliases.absolute_photo) "photo.png" "jpg" opts prepared
       = Ok filename
    /\ "/srv/media/100x100_q85_crop/t_photo.png.100x100_q85_crop.jpg"
       = os_path_join "/srv/media" [subdir; "t_" ++ filename].
Proof.
  exact (absolute_source_discards_basedir _ _ _ _ Demo.env DemoAliases.absolute_photo
           (ArgDict Demo.size_100) false
           "/srv/media/100x100_q85_crop/t_photo.png.100x100_q85_crop.jpg"
           eq_refl eq_refl).
Defined.

Lemma thumbnail_name_ends_with_filename_witness :
  exists opts prepared namer_func filename pre,
    get_options Demo.env Demo.photo (ArgDict Demo.size_100) [] = Ok opts
    /\ Demo.tokens_of opts = Ok prepared
    /\ outcome (resolve_namer Demo.env Demo.photo) = Ok namer_func
    /\ namer_func (attrs Demo.photo) "photo.png" "jpg" opts prepared = Ok filename
    /\ "thumbs/a/b/100x100_q85_crop/t_photo.png.100x100_q85_crop.jpg"
       = pre ++ "t_" ++ filename.
Proof.
  exact (thumbnail_name_ends_with_filename _ _ _ _ Demo.env Demo.photo
           (ArgDict Demo.size_100) false
           "thumbs/a/b/100x100_q85_crop/t_photo.png.100x100_q85_crop.jpg" eq_refl).
Defined.

Lemma preserved_extension_is_clean_witness :
  choose_extension Demo.env DemoAliases.preserving_photo "Photo.PNG" true <> ""
  /\ contains_char extsep
       (choose_extension Demo.env DemoAliases.preserving_photo "Photo.PNG" true) = false
  /\ contains_char sep
       (choose_extension Demo.env DemoAliases.preserving_photo "Photo.PNG" true) = false.
Proof.
  exact (preserved_extension_is_clean _ _ _ _ Demo.env DemoAliases.preserving_photo
           "Photo.PNG" true (fun s => eq_refl) (fun s => eq_refl) eq_refl).
Defined.

Lemma generate_thumbnail_success_witness :
  exists opts sz image thumbnail_image filename quality subsampling,
    get_options Demo.env Demo.photo (ArgDict Demo.size_100) [] = Ok opts
    /\ dict_get "size" opts = Some sz
    /\ size_sanity_check Demo.env sz = Ok tt
    /\ Demo.decode (Some "rgb") opts None false = Ok (Some image)
    /\ Ok image = Ok thumbnail_image
    /\ outcome (get_thumbnail_name Demo.env Demo.photo (ArgThumbnailOptions opts)
                  (Demo.has_alpha thumbnail_image)) = Ok filename
    /\ dict_get "quality" opts = Some quality
    /\ dict_get "subsampling" opts = Some subsampling
    /\ Ok (Demo.mkThumbnail filename quality subsampling (Demo.pixels thumbnail_image))
       = Ok (Demo.mkThumbnail "thumbs/a/b/100x100_q85_crop/t_photo.png.100x100_q85_crop.jpg"
               (VInt 85) (VInt 2) "rgb")
    /\ trace (generate_thumbnail Demo.env Demo.photo (ArgDict Demo.size_100) false) =
         ([EvGenerateSourceImage false; EvProcessImage; EvIsTransparent]
          ++ trace (get_thumbnail_name Demo.env Demo.photo (ArgThumbnailOptions opts)
                      (Demo.has_alpha thumbnail_image))
          ++ [EvSavePilImage filename])%list.
Proof.
  exact (generate_thumbnail_success _ _ _ _ Demo.env Demo.photo (ArgDict Demo.size_100) false
           (Demo.mkThumbnail "thumbs/a/b/100x100_q85_crop/t_photo.png.100x100_q85_crop.jpg"
              (VInt 85) (VInt 2) "rgb")
           eq_refl).
Defined.

Lemma missing_quality_fails_late_witness :
  generate_thumbnail DemoAliases.lenient_env Demo.photo
    (ArgThumbnailOptions DemoAliases.no_quality) false
  = ([EvGenerateSourceImage false; EvProcessImage; EvIsTransparent;
      EvImportString "easy_thumbnails.namers.default"; EvNamer],
     Err (ExcValue "KeyError" (VStr "quality"))).
Proof.
  exact (missing_quality_fails_late _ _ _ _ DemoAliases.lenient_env Demo.photo false
           DemoAliases.no_quality (VSeq [VInt 100; VInt 100])
           (Demo.mkImage false "rgb") (Demo.mkImage false "rgb")
           "thumbs/a/b/thumb/t_photo.png.thumb.jpg"
           eq_refl eq_refl eq_refl eq_refl eq_refl eq_refl).
Defined.

Lemma built_thumbnailer_invariants_witness :
  name Demo.named_photo <> ""
  /\ alias_target Demo.named_photo = None
  /\ source_storage Demo.named_photo = None
  /\ (remote_source Demo.named_photo = true <-> exists f, file Demo.named_photo = Some f)
  /\ (forall alias, exists rest,
        trace (Thumbnailer_getitem Demo.env Demo.named_photo alias)
        = EvAliasesGet alias None :: rest).
Proof.
  apply (built_thumbnailer_invariants _ _ _ _ Demo.env
           {| kind := KStr "photo.png"; easy_thumbnails_thumbnailer := None |} None
           Demo.named_photo eq_refl).
  - intros t'. discriminate.
  - reflexivity.
Defined.

Lemma demo_good_aliases_succeed :
  Forall (fun item => exists a, outcome (generate_alias Demo.env Demo.photo item) = Ok a)
    [DemoAliases.small; DemoAliases.large].
Proof. repeat constructor; eexists; vm_compute; reflexivity. Qed.

Lemma generate_all_aliases_outcome_witness :
  outcome (generate_all_aliases Demo.env DemoAliases.all_good DemoAliases.field true) = Ok tt.
Proof.
  apply (proj2 (proj1 (proj2 (proj2 (generate_all_aliases_outcome _ _ _ _ Demo.env
            DemoAliases.all_good DemoAliases.field true))
            [DemoAliases.small; DemoAliases.large] Demo.photo eq_refl eq_refl))).
  exact demo_good_aliases_succeed.
Defined.

Lemma demo_small_alias_succeeds :
  Forall (fun item => exists a, outcome (generate_alias Demo.env Demo.photo item) = Ok a)
    [DemoAliases.small].
Proof. repeat constructor; eexists; vm_compute; reflexivity. Qed.

Lemma generate_all_aliases_stops_at_first_failure_witness :
  generate_all_aliases Demo.env DemoAliases.all DemoAliases.field true
  = ((flat_map (fun item => trace (generate_alias Demo.env Demo.photo item))
        [DemoAliases.small]
      ++ trace (generate_alias Demo.env Demo.photo DemoAliases.broken))%list,
     Err (ExcFormat "EasyThumbnailsError" invalid_size_msg [VInt 0; VInt 0])).
Proof.
  apply (generate_all_aliases_stops_at_first_failure _ _ _ _ Demo.env DemoAliases.all
           DemoAliases.field true Demo.photo [DemoAliases.small] [DemoAliases.large]
           DemoAliases.broken
           (ExcFormat "EasyThumbnailsError" invalid_size_msg [VInt 0; VInt 0])
           eq_refl eq_refl).
  - exact demo_small_alias_succeeds.
  - reflexivity.
Defined.
